(** * Slack MCP server: channel resolver, mention scanner and tool dispatch

    A shallow embedding of the two server variants of the repository:
    the function-based server ([src/unnamed/part_001], module [Standalone])
    and the class-based server [SlackMcpServer] ([src/build/index.js],
    module [SlackMcpServer]), together with the helpers they share
    ([resolveChannelId], [getChannelMessages], [getMentions]).

    Every [await fetch(...)] of the source is a [Fetch] node of a small
    free monad; the Slack Web API is an arbitrary state machine that
    answers each request, and the interpreter [exec] records the requests
    in the order they are issued.  The fields of the server object are
    read and written through [ReadThis] and [WriteThis].  Logging with
    [console.error] is left out. *)

From Stdlib Require Import String Ascii List ZArith Bool Lia.
Import ListNotations.
Local Open Scope string_scope.
Local Open Scope Z_scope.

Set Implicit Arguments.

(** ** JavaScript values used by the source *)

(** [undefined] is [None].  A string is truthy when it is not empty, a
    number when it is not zero.  Numbers are the integers: every limit
    the tools document is a count. *)

(** The value of [v] when [v] is truthy. *)
Definition as_truthy (v : option string) : option string :=
  match v with
  | Some s => if (s =? "")%string then None else Some s
  | None => None
  end.

Definition truthy (v : option string) : bool :=
  match as_truthy v with
  | Some _ => true
  | None => false
  end.

Definition truthy_number (v : option Z) : bool :=
  match v with
  | Some n => negb (n =? 0)
  | None => false
  end.

(** [v || d] on an optional number. *)
Definition or_default (v : option Z) (d : Z) : Z :=
  match v with
  | Some n => if n =? 0 then d else n
  | None => d
  end.

(** A default parameter [limit = d] replaces [undefined] only. *)
Definition default_param (v : option Z) (d : Z) : Z :=
  match v with
  | Some n => n
  | None => d
  end.

(** [hay.startsWith(needle)]. *)
Fixpoint starts_with (needle hay : string) : bool :=
  match needle, hay with
  | EmptyString, _ => true
  | String _ _, EmptyString => false
  | String a needle', String b hay' => Ascii.eqb a b && starts_with needle' hay'
  end.

(** [hay.includes(needle)]: the needle starts at some position of [hay]. *)
Fixpoint includes (hay needle : string) : bool :=
  starts_with needle hay ||
  match hay with
  | EmptyString => false
  | String _ hay' => includes hay' needle
  end.

(** [xs.slice(0, e)]: a negative end counts from the end of the array. *)
Definition slice0 (A : Type) (xs : list A) (e : Z) : list A :=
  let len := Z.of_nat (length xs) in
  let final := if e <? 0 then Z.max (len + e) 0 else Z.min e len in
  firstn (Z.to_nat final) xs.

(** ** Data model *)

Module Channel.
Record t : Type := make { id : string; name : string; name_normalized : string }.
End Channel.

Module Message.
Record t : Type := make { text : option string; ts : string }.
End Message.

(** The flat argument object of a tool call; an absent key is [None]. *)
Module Args.
Record t : Type := make {
  channel_id : option string;
  channel_name : option string;
  text : option string;
  thread_ts : option string;
  user_id : option string;
  limit : option Z;
  cursor : option string
}.

Definition empty : t := make None None None None None None None.

Definition with_limit (l : option Z) (a : t) : t :=
  make (channel_id a) (channel_name a) (text a) (thread_ts a) (user_id a) l (cursor a).
End Args.

(** Bodies of the upstream answers, as [response.json()] parses them. *)
Module ChannelsResponse.
Record t : Type := make { ok : bool; channels : list Channel.t }.
End ChannelsResponse.

Module HistoryResponse.
Record t : Type := make { ok : bool; messages : list Message.t }.
End HistoryResponse.

Module AuthTestResponse.
Record t : Type := make { ok : bool; user_id : option string }.
End AuthTestResponse.

(** Answers the server only forwards are kept as their raw body. *)
Inductive Json : Type := RawJson (body : string).

(** ** Errors *)

Inductive ErrorCode : Type := InvalidRequest | MethodNotFound.

Inductive JsError : Type :=
| Error (msg : string)
| TypeError (msg : string)
| McpError (code : ErrorCode) (msg : string).

Definition message (e : JsError) : string :=
  match e with
  | Error m | TypeError m | McpError _ m => m
  end.

(** ** Upstream requests *)

(** One constructor per Slack Web API method the source calls, with the
    query or body parameters the source sends. *)
Inductive Req : Type :=
| ConversationsList (limit : Z) (cursor : option string)
| ConversationsHistory (channel : string) (limit : Z)
| ConversationsReplies (channel : string) (ts : string)
| ChatPostMessage (channel : string) (thread_ts : option string) (text : option string)
| UsersList (limit : Z) (cursor : option string)
| UsersProfileGet (user : string)
| AuthTest.

Definition Resp (q : Req) : Type :=
  match q with
  | ConversationsList _ _ => ChannelsResponse.t
  | ConversationsHistory _ _ => HistoryResponse.t
  | AuthTest => AuthTestResponse.t
  | _ => Json
  end.

(** [await fetch(...)] then [await response.json()] either yields the
    parsed body or rejects. *)
Inductive FetchResult (R : Type) : Type :=
| Resolved (r : R)
| Rejected (e : JsError).
Arguments Rejected {R} e.

(** ** The object state of the class-based server *)

Record SlackClient : Type := { botToken : string }.

Record ServerState : Type := {
  slackClient : option SlackClient;
  slackBotUserId : option string
}.

(** ** Programs *)

Inductive Prog (A : Type) : Type :=
| Ret (a : A)
| Throw (e : JsError)
| Fetch (q : Req) (k : FetchResult (Resp q) -> Prog A)
| ReadThis (k : ServerState -> Prog A)
| WriteThis (s : ServerState) (k : Prog A).
Arguments Throw {A} e.

Fixpoint bind (A B : Type) (m : Prog A) (f : A -> Prog B) : Prog B :=
  match m with
  | Ret a => f a
  | Throw e => Throw e
  | Fetch q k => Fetch q (fun r => bind (k r) f)
  | ReadThis k => ReadThis (fun s => bind (k s) f)
  | WriteThis s k => WriteThis s (bind k f)
  end.

(** [try { m } catch (error) { h error }]. *)
Fixpoint try_catch (A : Type) (m : Prog A) (h : JsError -> Prog A) : Prog A :=
  match m with
  | Ret a => Ret a
  | Throw e => h e
  | Fetch q k => Fetch q (fun r => try_catch (k r) h)
  | ReadThis k => ReadThis (fun s => try_catch (k s) h)
  | WriteThis s k => WriteThis s (try_catch k h)
  end.

Declare Scope prog_scope.
Delimit Scope prog_scope with prog.
Notation "x <- m ;; k" := (bind m (fun x => k))
  (at level 61, m at next level, right associativity) : prog_scope.
Local Open Scope prog_scope.

(** An awaited call: a rejection is thrown at the [await]. *)
Definition await (q : Req) : Prog (Resp q) :=
  Fetch q (fun r => match r with
                    | Resolved v => Ret v
                    | Rejected e => Throw e
                    end).

Inductive Outcome (A : Type) : Type :=
| Returned (a : A)
| Thrown (e : JsError).
Arguments Thrown {A} e.

(** What one execution leaves behind: the upstream state, the server
    object, the requests issued (in order) and how the program ended. *)
Record Execution (U A : Type) : Type := mkExecution {
  upstream_after : U;
  this_after : ServerState;
  calls : list Req;
  outcome : Outcome A
}.

Section Interpreter.
Context {U : Type}.
(** The Slack Web API: a state and an answer to every request. *)
Variable upstream : forall q : Req, U -> U * FetchResult (Resp q).

Fixpoint exec (A : Type) (m : Prog A) (this : ServerState) (u : U) : Execution U A :=
  match m with
  | Ret a => mkExecution u this [] (Returned a)
  | Throw e => mkExecution u this [] (Thrown e)
  | Fetch q k =>
      let (u', r) := upstream q u in
      let rest := exec (k r) this u' in
      mkExecution (upstream_after rest) (this_after rest) (q :: calls rest) (outcome rest)
  | ReadThis k => exec (k this) this u
  | WriteThis s k => exec k s u
  end.
End Interpreter.

(** ** The Slack client ([SlackClient] of both variants) *)

Definition getChannels (self : SlackClient) (limit : option Z) (cursor : option string)
  : Prog ChannelsResponse.t :=
  await (ConversationsList (Z.min (default_param limit 100) 200) (as_truthy cursor)).

Definition postMessage (self : SlackClient) (channel_id : string) (text : option string)
  : Prog Json :=
  await (ChatPostMessage channel_id None text).

Definition postReply (self : SlackClient) (channel_id : string)
  (thread_ts text : option string) : Prog Json :=
  await (ChatPostMessage channel_id thread_ts text).

Definition getChannelHistory (self : SlackClient) (channel_id : string) (limit : option Z)
  : Prog HistoryResponse.t :=
  await (ConversationsHistory channel_id (default_param limit 10)).

Definition getThreadReplies (self : SlackClient) (channel_id thread_ts : string)
  : Prog Json :=
  await (ConversationsReplies channel_id thread_ts).

Definition getUsers (self : SlackClient) (limit : option Z) (cursor : option string)
  : Prog Json :=
  await (UsersList (Z.min (default_param limit 100) 200) (as_truthy cursor)).

Definition getUserProfile (self : SlackClient) (user_id : string) : Prog Json :=
  await (UsersProfileGet user_id).

(** ** Helpers shared by both variants *)

(** The predicate of [channels.find]: strict equality on either name. *)
Definition name_matches (channel_name : string) (ch : Channel.t) : bool :=
  (Channel.name ch =? channel_name)%string
  || (Channel.name_normalized ch =? channel_name)%string.

Definition not_found (channel_name : string) : JsError :=
  Error ("Channel with name '" ++ channel_name ++ "' not found").

Definition resolveChannelId (slackClient : SlackClient)
  (channel_id channel_name : option string) : Prog string :=
  match as_truthy channel_id with
  | Some channel_id => Ret channel_id
  | None =>
      match as_truthy channel_name with
      | None => Throw (Error "Missing channel_id or channel_name")
      | Some channel_name =>
          channelsResp <- getChannels slackClient (Some 200) None ;;
          if negb (ChannelsResponse.ok channelsResp)
          then Throw (Error "Failed to fetch channels list")
          else match find (name_matches channel_name) (ChannelsResponse.channels channelsResp) with
               | None => Throw (not_found channel_name)
               | Some match_ => Ret (Channel.id match_)
               end
      end
  end.

Definition getChannelMessages (slackClient : SlackClient) (args : Args.t)
  : Prog HistoryResponse.t :=
  channelId <- resolveChannelId slackClient (Args.channel_id args) (Args.channel_name args) ;;
  await (ConversationsHistory channelId (or_default (Args.limit args) 5)).

(** The body of [for (const ch of channelsResp.channels)]: one history
    call per channel, in order; an answer that is not ok adds nothing. *)
Fixpoint for_each_channel (limit : Z) (chs : list Channel.t) (messages : list Message.t)
  : Prog (list Message.t) :=
  match chs with
  | [] => Ret messages
  | ch :: rest =>
      data <- await (ConversationsHistory (Channel.id ch) limit) ;;
      for_each_channel limit rest
        (if HistoryResponse.ok data then messages ++ HistoryResponse.messages data else messages)
  end.

Definition mentionTag (userId : string) : string := "<@" ++ userId ++ ">".

(** [msg.text && msg.text.includes(mentionTag)]. *)
Definition is_mentioned (userId : string) (msg : Message.t) : bool :=
  match as_truthy (Message.text msg) with
  | Some text => includes text (mentionTag userId)
  | None => false
  end.

Definition getMentions (slackClient : SlackClient) (args : Args.t) (userId : string)
  : Prog HistoryResponse.t :=
  channelId <-
    match as_truthy (Args.channel_id args) with
    | Some channel_id => Ret (Some channel_id)
    | None =>
        if truthy (Args.channel_name args)
        then id <- resolveChannelId slackClient None (Args.channel_name args) ;; Ret (Some id)
        else Ret None
    end ;;
  messages <-
    match as_truthy channelId with
    | Some channelId =>
        data <- await (ConversationsHistory channelId (or_default (Args.limit args) 10)) ;;
        Ret (if HistoryResponse.ok data then HistoryResponse.messages data else [])
    | None =>
        channelsResp <- getChannels slackClient (Some 200) None ;;
        if negb (ChannelsResponse.ok channelsResp)
        then Throw (Error "Failed to fetch channels list")
        else for_each_channel (or_default (Args.limit args) 10)
               (ChannelsResponse.channels channelsResp) []
    end ;;
  let mentioned := filter (is_mentioned userId) messages in
  Ret (HistoryResponse.make true (slice0 mentioned (or_default (Args.limit args) 10))).

(** ** Tool calls and their results *)

Record CallToolRequest : Type := {
  name : string;
  arguments : option Args.t
}.

(** What [JSON.stringify] is applied to. *)
Inductive Value : Type :=
| ChannelsValue (r : ChannelsResponse.t)
| HistoryValue (r : HistoryResponse.t)
| JsonValue (r : Json).

(** The text of the single content block of a result. *)
Inductive TextBody : Type :=
| JSON_stringify (v : Value)
| JSON_stringify_error (error : string)   (* JSON.stringify({ error: ... }) *)
| Literal (s : string).

Record CallToolResult : Type := {
  content : TextBody;
  isError : bool
}.

Definition text_result (v : Value) : CallToolResult :=
  {| content := JSON_stringify v; isError := false |}.

(** The operation names of the [switch] of both dispatchers. *)
Inductive Tool : Type :=
| channels_list_on_slack
| send_message_on_slack
| reply_to_thread_on_slack
| get_channel_history_on_slack
| get_thread_replies_on_slack
| get_users_on_slack
| get_user_profile_on_slack
| get_channel_messages_on_slack
| get_mentions_on_slack.

Definition tool_of_name (n : string) : option Tool :=
  if (n =? "channels_list_on_slack")%string then Some channels_list_on_slack
  else if (n =? "send_message_on_slack")%string then Some send_message_on_slack
  else if (n =? "reply_to_thread_on_slack")%string then Some reply_to_thread_on_slack
  else if (n =? "get_channel_history_on_slack")%string then Some get_channel_history_on_slack
  else if (n =? "get_thread_replies_on_slack")%string then Some get_thread_replies_on_slack
  else if (n =? "get_users_on_slack")%string then Some get_users_on_slack
  else if (n =? "get_user_profile_on_slack")%string then Some get_user_profile_on_slack
  else if (n =? "get_channel_messages_on_slack")%string then Some get_channel_messages_on_slack
  else if (n =? "get_mentions_on_slack")%string then Some get_mentions_on_slack
  else None.

(** ** The function-based server ([src/unnamed/part_001]) *)

Module Standalone.

(** The resolution the [send_message], [get_channel_history] and
    [get_thread_replies] cases each write out:
    [let channelId = args.channel_id; if (!channelId && args.channel_name) {...}]. *)
Definition resolve_in_case (slackClient : SlackClient) (args : Args.t)
  : Prog (option string) :=
  match as_truthy (Args.channel_id args), as_truthy (Args.channel_name args) with
  | None, Some channel_name =>
      channelsResp <- getChannels slackClient (Some 200) None ;;
      if negb (ChannelsResponse.ok channelsResp)
      then Throw (Error "Failed to fetch channels list")
      else match find (name_matches channel_name) (ChannelsResponse.channels channelsResp) with
           | None => Throw (not_found channel_name)
           | Some match_ => Ret (Some (Channel.id match_))
           end
  | _, _ => Ret (Args.channel_id args)
  end.

Definition missing_channel : JsError :=
  Error "Missing required argument: channel_id or channel_name".

(** The [switch (request.params.name)] inside the [try] block. *)
Definition switch (slackClient : SlackClient) (name : string) (args : Args.t)
  : Prog CallToolResult :=
  match tool_of_name name with
  | Some channels_list_on_slack =>
      response <- getChannels slackClient (Args.limit args) (Args.cursor args) ;;
      Ret (text_result (ChannelsValue response))
  | Some send_message_on_slack =>
      channelId <- resolve_in_case slackClient args ;;
      match as_truthy channelId with
      | None => Throw missing_channel
      | Some channelId =>
          match as_truthy (Args.text args) with
          | None => Throw (Error "Missing required argument: text")
          | Some text =>
              response <- postMessage slackClient channelId (Some text) ;;
              Ret (text_result (JsonValue response))
          end
      end
  | Some reply_to_thread_on_slack =>
      match as_truthy (Args.channel_id args),
            as_truthy (Args.thread_ts args),
            as_truthy (Args.text args) with
      | Some channel_id, Some thread_ts, Some text =>
          response <- postReply slackClient channel_id (Some thread_ts) (Some text) ;;
          Ret (text_result (JsonValue response))
      | _, _, _ =>
          Throw (Error "Missing required arguments: channel_id, thread_ts, and text")
      end
  | Some get_channel_history_on_slack =>
      channelId <- resolve_in_case slackClient args ;;
      match as_truthy channelId with
      | None => Throw missing_channel
      | Some channelId =>
          response <- getChannelHistory slackClient channelId (Args.limit args) ;;
          Ret (text_result (HistoryValue response))
      end
  | Some get_thread_replies_on_slack =>
      channelId <- resolve_in_case slackClient args ;;
      match as_truthy channelId with
      | None => Throw missing_channel
      | Some channelId =>
          match as_truthy (Args.thread_ts args) with
          | None => Throw (Error "Missing required argument: thread_ts")
          | Some thread_ts =>
              response <- getThreadReplies slackClient channelId thread_ts ;;
              Ret (text_result (JsonValue response))
          end
      end
  | Some get_users_on_slack =>
      response <- getUsers slackClient (Args.limit args) (Args.cursor args) ;;
      Ret (text_result (JsonValue response))
  | Some get_user_profile_on_slack =>
      match as_truthy (Args.user_id args) with
      | None => Throw (Error "Missing required argument: user_id")
      | Some user_id =>
          response <- getUserProfile slackClient user_id ;;
          Ret (text_result (JsonValue response))
      end
  | Some get_channel_messages_on_slack =>
      response <- getChannelMessages slackClient args ;;
      Ret (text_result (HistoryValue response))
  | Some get_mentions_on_slack =>
      let userId := "PLACEHOLDER_USER_ID" in
      response <- getMentions slackClient args userId ;;
      Ret (text_result (HistoryValue response))
  | None => Throw (Error ("Unknown tool: " ++ name))
  end.

(** The [try] block of the handler. *)
Definition try_block (slackClient : SlackClient) (request : CallToolRequest)
  : Prog CallToolResult :=
  match arguments request with
  | None => Throw (Error "No arguments provided")
  | Some args => switch slackClient (name request) args
  end.

(** [catch (error)]: every [Error] is reported by its message. *)
Definition error_payload (error : JsError) : CallToolResult :=
  {| content := JSON_stringify_error (message error); isError := false |}.

(** The handler registered for [CallToolRequestSchema]. *)
Definition CallToolRequestHandler (slackClient : SlackClient) (request : CallToolRequest)
  : Prog CallToolResult :=
  try_catch (try_block slackClient request) (fun error => Ret (error_payload error)).

(** Whether an argument that the [switch] checks for the tool is missing. *)
Definition missing_required (t : Tool) (args : Args.t) : bool :=
  let no_channel := negb (truthy (Args.channel_id args) || truthy (Args.channel_name args)) in
  match t with
  | send_message_on_slack => no_channel || negb (truthy (Args.text args))
  | reply_to_thread_on_slack =>
      negb (truthy (Args.channel_id args)) || negb (truthy (Args.thread_ts args))
      || negb (truthy (Args.text args))
  | get_channel_history_on_slack => no_channel
  | get_thread_replies_on_slack => no_channel || negb (truthy (Args.thread_ts args))
  | get_user_profile_on_slack => negb (truthy (Args.user_id args))
  | get_channel_messages_on_slack => no_channel
  | channels_list_on_slack | get_users_on_slack | get_mentions_on_slack => false
  end.

(** Whether the case of the tool resolves a channel name before it
    checks its other arguments. *)
Definition resolves_name_first (t : Tool) (args : Args.t) : bool :=
  match t with
  | send_message_on_slack | get_thread_replies_on_slack =>
      negb (truthy (Args.channel_id args)) && truthy (Args.channel_name args)
  | _ => false
  end.

End Standalone.

(** ** The class-based server ([SlackMcpServer] of [src/build/index.js]) *)

Module SlackMcpServer.

(** [this]. *)
Definition this : Prog ServerState := ReadThis (fun s => Ret s).

(** The state the constructor leaves. *)
Definition constructed : ServerState :=
  {| slackClient := None; slackBotUserId := None |}.

Definition initializeSlackClient (SLACK_BOT_TOKEN : option string) : option SlackClient :=
  match as_truthy SLACK_BOT_TOKEN with
  | None => None
  | Some botToken => Some {| botToken := botToken |}
  end.

Definition fetchBotUserId : Prog unit :=
  self <- this ;;
  match slackClient self with
  | None => Ret tt
  | Some _ =>
      try_catch
        (data <- await AuthTest ;;
         if AuthTestResponse.ok data && truthy (AuthTestResponse.user_id data)
         then self <- this ;;
              WriteThis {| slackClient := slackClient self;
                           slackBotUserId := AuthTestResponse.user_id data |} (Ret tt)
         else Ret tt)
        (fun _ => Ret tt)
  end.

Definition not_initialized : CallToolResult :=
  {| content := Literal "Slack client not initialized."; isError := true |}.

Definition missing_channel : CallToolResult :=
  {| content := Literal "Missing channel_id or channel_name."; isError := true |}.

(** [{ content: [{ type: "text", text: `<label>${error.message}` }], isError: true }]. *)
Definition error_result (label : string) (error : JsError) : CallToolResult :=
  {| content := Literal (label ++ message error); isError := true |}.

(** The message of the [TypeError] that reading [undefined.<key>] throws. *)
Definition cannot_read (key : string) : string :=
  "Cannot read properties of undefined (reading '" ++ key ++ "')".

(** The first property read on [args], [args.<key>]: a [TypeError] when
    the request carried no arguments object. *)
Definition property_of (args : option Args.t) (key : string) : Prog Args.t :=
  match args with
  | Some a => Ret a
  | None => Throw (TypeError (cannot_read key))
  end.

(** How [URLSearchParams] renders a string property that may be
    [undefined]. *)
Definition String_ (v : option string) : string :=
  match v with
  | Some s => s
  | None => "undefined"
  end.

(** [let channelId = args.channel_id;
     if (!channelId && args.channel_name) channelId = await resolveChannelId(...)]. *)
Definition resolve_in_method (slackClient : SlackClient) (args : Args.t)
  : Prog (option string) :=
  if negb (truthy (Args.channel_id args)) && truthy (Args.channel_name args)
  then id <- resolveChannelId slackClient None (Args.channel_name args) ;; Ret (Some id)
  else Ret (Args.channel_id args).

(** The frame of the handler methods ([handleGetMentions] adds the
    identity step between the check and the [try]):
    [if (!this.slackClient) return not_initialized;
     try { body } catch (error) { return error_result(label, error) }]. *)
Definition guarded (label : string) (body : SlackClient -> Prog CallToolResult)
  : Prog CallToolResult :=
  self <- this ;;
  match slackClient self with
  | None => Ret not_initialized
  | Some slackClient =>
      try_catch (body slackClient) (fun error => Ret (error_result label error))
  end.

Definition handleListChannels (args : option Args.t) : Prog CallToolResult :=
  guarded "Error listing channels: " (fun slackClient =>
    args <- property_of args "limit" ;;
    response <- getChannels slackClient (Args.limit args) (Args.cursor args) ;;
    Ret (text_result (ChannelsValue response))).

Definition handlePostMessage (args : option Args.t) : Prog CallToolResult :=
  guarded "Error sending message: " (fun slackClient =>
    args <- property_of args "channel_id" ;;
    channelId <- resolve_in_method slackClient args ;;
    match as_truthy channelId with
    | None => Ret missing_channel
    | Some channelId =>
        response <- postMessage slackClient channelId (Args.text args) ;;
        Ret (text_result (JsonValue response))
    end).

Definition handleReplyToThread (args : option Args.t) : Prog CallToolResult :=
  guarded "Error replying to thread: " (fun slackClient =>
    args <- property_of args "channel_id" ;;
    channelId <- resolve_in_method slackClient args ;;
    match as_truthy channelId with
    | None => Ret missing_channel
    | Some channelId =>
        response <- postReply slackClient channelId (Args.thread_ts args) (Args.text args) ;;
        Ret (text_result (JsonValue response))
    end).

Definition handleGetChannelHistory (args : option Args.t) : Prog CallToolResult :=
  guarded "Error getting channel history: " (fun slackClient =>
    args <- property_of args "channel_id" ;;
    channelId <- resolve_in_method slackClient args ;;
    match as_truthy channelId with
    | None => Ret missing_channel
    | Some channelId =>
        response <- getChannelHistory slackClient channelId (Args.limit args) ;;
        Ret (text_result (HistoryValue response))
    end).

Definition handleGetThreadReplies (args : option Args.t) : Prog CallToolResult :=
  guarded "Error getting thread replies: " (fun slackClient =>
    args <- property_of args "channel_id" ;;
    channelId <- resolve_in_method slackClient args ;;
    match as_truthy channelId with
    | None => Ret missing_channel
    | Some channelId =>
        response <- getThreadReplies slackClient channelId (String_ (Args.thread_ts args)) ;;
        Ret (text_result (JsonValue response))
    end).

Definition handleGetUsers (args : option Args.t) : Prog CallToolResult :=
  guarded "Error getting users: " (fun slackClient =>
    args <- property_of args "limit" ;;
    response <- getUsers slackClient (Args.limit args) (Args.cursor args) ;;
    Ret (text_result (JsonValue response))).

Definition handleGetUserProfile (args : option Args.t) : Prog CallToolResult :=
  guarded "Error getting user profile: " (fun slackClient =>
    args <- property_of args "user_id" ;;
    response <- getUserProfile slackClient (String_ (Args.user_id args)) ;;
    Ret (text_result (JsonValue response))).

Definition handleGetChannelMessages (args : option Args.t) : Prog CallToolResult :=
  guarded "Error getting channel messages: " (fun slackClient =>
    args <- property_of args "channel_id" ;;
    response <- getChannelMessages slackClient args ;;
    Ret (text_result (HistoryValue response))).

Definition bot_user_id_not_available : CallToolResult :=
  {| content := Literal "Slack Bot User ID not available."; isError := true |}.

Definition handleGetMentions (args : option Args.t) : Prog CallToolResult :=
  self <- this ;;
  match slackClient self with
  | None => Ret not_initialized
  | Some slackClient =>
      _ <- (if negb (truthy (slackBotUserId self)) then fetchBotUserId else Ret tt) ;;
      self <- this ;;
      match as_truthy (slackBotUserId self) with
      | None => Ret bot_user_id_not_available
      | Some slackBotUserId =>
          try_catch
            (args <- property_of args "channel_id" ;;
             response <- getMentions slackClient args slackBotUserId ;;
             Ret (text_result (HistoryValue response)))
            (fun error => Ret (error_result "Error getting mentions: " error))
      end
  end.

(** ["key" in args], after [args &&]. *)
Definition has_key (A : Type) (key : Args.t -> option A) (args : option Args.t) : bool :=
  match args with
  | Some a => match key a with Some _ => true | None => false end
  | None => false
  end.

(** The handler registered for [CallToolRequestSchema] by [setupToolHandlers]. *)
Definition CallToolRequestHandler (request : CallToolRequest) : Prog CallToolResult :=
  let args := arguments request in
  match tool_of_name (name request) with
  | Some channels_list_on_slack => handleListChannels args
  | Some send_message_on_slack => handlePostMessage args
  | Some reply_to_thread_on_slack =>
      if has_key Args.thread_ts args && has_key Args.text args
      then handleReplyToThread args
      else Throw (McpError InvalidRequest
             "Missing required arguments: thread_ts and text for reply_to_thread_on_slack")
  | Some get_channel_history_on_slack => handleGetChannelHistory args
  | Some get_thread_replies_on_slack =>
      if has_key Args.thread_ts args
      then handleGetThreadReplies args
      else Throw (McpError InvalidRequest
             "Missing required argument: thread_ts for get_thread_replies_on_slack")
  | Some get_users_on_slack => handleGetUsers args
  | Some get_user_profile_on_slack =>
      if has_key Args.user_id args
      then handleGetUserProfile args
      else Throw (McpError InvalidRequest
             "Missing required argument: user_id for get_user_profile_on_slack")
  | Some get_channel_messages_on_slack => handleGetChannelMessages args
  | Some get_mentions_on_slack => handleGetMentions args
  | None => Throw (McpError MethodNotFound ("Unknown tool: " ++ name request))
  end.

(** The method the [switch] calls for an operation name it knows. *)
Definition method_of (t : Tool) : option Args.t -> Prog CallToolResult :=
  match t with
  | channels_list_on_slack => handleListChannels
  | send_message_on_slack => handlePostMessage
  | reply_to_thread_on_slack => handleReplyToThread
  | get_channel_history_on_slack => handleGetChannelHistory
  | get_thread_replies_on_slack => handleGetThreadReplies
  | get_users_on_slack => handleGetUsers
  | get_user_profile_on_slack => handleGetUserProfile
  | get_channel_messages_on_slack => handleGetChannelMessages
  | get_mentions_on_slack => handleGetMentions
  end.

(** The statements inside the [try] of the method of each operation,
    given the client and, for the mention tool, the bot user id the
    method has read from the server object. *)
Definition try_of (t : Tool) (slackClient : SlackClient) (slackBotUserId : string)
  (args : option Args.t) : Prog CallToolResult :=
  match t with
  | channels_list_on_slack =>
      args <- property_of args "limit" ;;
      response <- getChannels slackClient (Args.limit args) (Args.cursor args) ;;
      Ret (text_result (ChannelsValue response))
  | send_message_on_slack =>
      args <- property_of args "channel_id" ;;
      channelId <- resolve_in_method slackClient args ;;
      match as_truthy channelId with
      | None => Ret missing_channel
      | Some channelId =>
          response <- postMessage slackClient channelId (Args.text args) ;;
          Ret (text_result (JsonValue response))
      end
  | reply_to_thread_on_slack =>
      args <- property_of args "channel_id" ;;
      channelId <- resolve_in_method slackClient args ;;
      match as_truthy channelId with
      | None => Ret missing_channel
      | Some channelId =>
          response <- postReply slackClient channelId (Args.thread_ts args) (Args.text args) ;;
          Ret (text_result (JsonValue response))
      end
  | get_channel_history_on_slack =>
      args <- property_of args "channel_id" ;;
      channelId <- resolve_in_method slackClient args ;;
      match as_truthy channelId with
      | None => Ret missing_channel
      | Some channelId =>
          response <- getChannelHistory slackClient channelId (Args.limit args) ;;
          Ret (text_result (HistoryValue response))
      end
  | get_thread_replies_on_slack =>
      args <- property_of args "channel_id" ;;
      channelId <- resolve_in_method slackClient args ;;
      match as_truthy channelId with
      | None => Ret missing_channel
      | Some channelId =>
          response <- getThreadReplies slackClient channelId (String_ (Args.thread_ts args)) ;;
          Ret (text_result (JsonValue response))
      end
  | get_users_on_slack =>
      args <- property_of args "limit" ;;
      response <- getUsers slackClient (Args.limit args) (Args.cursor args) ;;
      Ret (text_result (JsonValue response))
  | get_user_profile_on_slack =>
      args <- property_of args "user_id" ;;
      response <- getUserProfile slackClient (String_ (Args.user_id args)) ;;
      Ret (text_result (JsonValue response))
  | get_channel_messages_on_slack =>
      args <- property_of args "channel_id" ;;
      response <- getChannelMessages slackClient args ;;
      Ret (text_result (HistoryValue response))
  | get_mentions_on_slack =>
      args <- property_of args "channel_id" ;;
      response <- getMentions slackClient args slackBotUserId ;;
      Ret (text_result (HistoryValue response))
  end.

(** The text that the [catch] of the method of each operation puts before
    the message of the error. *)
Definition error_label (t : Tool) : string :=
  match t with
  | channels_list_on_slack => "Error listing channels: "
  | send_message_on_slack => "Error sending message: "
  | reply_to_thread_on_slack => "Error replying to thread: "
  | get_channel_history_on_slack => "Error getting channel history: "
  | get_thread_replies_on_slack => "Error getting thread replies: "
  | get_users_on_slack => "Error getting users: "
  | get_user_profile_on_slack => "Error getting user profile: "
  | get_channel_messages_on_slack => "Error getting channel messages: "
  | get_mentions_on_slack => "Error getting mentions: "
  end.

(** [run()]: returns whether the server was connected to its transport. *)
Definition run (SLACK_BOT_TOKEN : option string) : Prog bool :=
  self <- this ;;
  let client := initializeSlackClient SLACK_BOT_TOKEN in
  WriteThis {| slackClient := client; slackBotUserId := slackBotUserId self |}
    match client with
    | None => Ret false
    | Some _ => _ <- fetchBotUserId ;; Ret true
    end.

End SlackMcpServer.

(** ** The process: one request at a time *)

Section Process.
Context {U : Type}.
Variable upstream : forall q : Req, U -> U * FetchResult (Resp q).

Definition responses (r : Execution U (list (Outcome CallToolResult)))
  : list (Outcome CallToolResult) :=
  match outcome r with
  | Returned os => os
  | Thrown _ => []
  end.

(** The transport hands the requests to the handler one after the
    other; a request that faults is answered with the fault and the
    next one is served on the same server object. *)
Fixpoint serve (handler : CallToolRequest -> Prog CallToolResult)
  (requests : list CallToolRequest) (this : ServerState) (u : U)
  : Execution U (list (Outcome CallToolResult)) :=
  match requests with
  | [] => mkExecution u this [] (Returned [])
  | request :: rest =>
      let r := exec upstream (handler request) this u in
      let r' := serve handler rest (this_after r) (upstream_after r) in
      mkExecution (upstream_after r') (this_after r')
        (calls r ++ calls r') (Returned (outcome r :: responses r'))
  end.

(** The answers the upstream gives to one history request per channel,
    asked in channel order from state [u]. *)
Fixpoint history_pages (limit : Z) (chs : list Channel.t) (u : U)
  : list (FetchResult HistoryResponse.t) :=
  match chs with
  | [] => []
  | ch :: rest =>
      let (u', r) := upstream (ConversationsHistory (Channel.id ch) limit) u in
      r :: history_pages limit rest u'
  end.

(** The process: [run()] on the constructed server, then, when the server
    was connected, the requests in turn. *)
Definition process (SLACK_BOT_TOKEN : option string) (requests : list CallToolRequest)
  (u : U) : Execution U (list (Outcome CallToolResult)) :=
  let start := exec upstream (SlackMcpServer.run SLACK_BOT_TOKEN)
                 SlackMcpServer.constructed u in
  match outcome start with
  | Returned true =>
      let r := serve SlackMcpServer.CallToolRequestHandler requests
                 (this_after start) (upstream_after start) in
      mkExecution (upstream_after r) (this_after r) (calls start ++ calls r) (outcome r)
  | _ => mkExecution (upstream_after start) (this_after start) (calls start) (Returned [])
  end.
End Process.

(** The messages a history answer contributes to a scan. *)
Definition page_messages (r : FetchResult HistoryResponse.t) : list Message.t :=
  match r with
  | Resolved data => if HistoryResponse.ok data then HistoryResponse.messages data else []
  | Rejected _ => []
  end.

Definition is_resolved (R : Type) (r : FetchResult R) : Prop :=
  match r with
  | Resolved _ => True
  | Rejected _ => False
  end.

(** The outcome of the per-channel loop, read off the answers: a
    rejected call ends the loop with its error, an answer that is not ok
    is passed over. *)
Fixpoint collect (pages : list (FetchResult HistoryResponse.t)) (acc : list Message.t)
  : Outcome (list Message.t) :=
  match pages with
  | [] => Returned acc
  | Resolved data :: rest =>
      collect rest (if HistoryResponse.ok data then acc ++ HistoryResponse.messages data else acc)
  | Rejected e :: _ => Thrown e
  end.

(** Sequencing of executions, as [bind] sequences programs. *)
Definition then_exec (U A B : Type) (r : Execution U A)
  (k : A -> ServerState -> U -> Execution U B) : Execution U B :=
  match outcome r with
  | Returned a =>
      let r2 := k a (this_after r) (upstream_after r) in
      mkExecution (upstream_after r2) (this_after r2) (calls r ++ calls r2) (outcome r2)
  | Thrown e => mkExecution (upstream_after r) (this_after r) (calls r) (Thrown e)
  end.

(** A program no path of which ends in [Throw]. *)
Fixpoint never_throws (A : Type) (m : Prog A) : Prop :=
  match m with
  | Ret _ => True
  | Throw _ => False
  | Fetch q k => forall r, never_throws (k r)
  | ReadThis k => forall s, never_throws (k s)
  | WriteThis _ k => never_throws k
  end.

(** Run on the server object [s], the program only issues requests that
    satisfy [P] and only writes [s] back. *)
Fixpoint keeps (P : Req -> Prop) (s : ServerState) (A : Type) (m : Prog A) : Prop :=
  match m with
  | Ret _ => True
  | Throw _ => True
  | Fetch q k => P q /\ forall r, keeps P s (k r)
  | ReadThis k => keeps P s (k s)
  | WriteThis s' k => s' = s /\ keeps P s k
  end.

(** The history request the scanner issues for a channel. *)
Definition history_request (limit : Z) (ch : Channel.t) : Req :=
  ConversationsHistory (Channel.id ch) limit.

(** Every history request among the calls asks for [limit] messages. *)
Definition history_limit_is (limit : Z) (q : Req) : Prop :=
  match q with
  | ConversationsHistory _ l => l = limit
  | _ => True
  end.

Definition is_identity_fetch (q : Req) : bool :=
  match q with
  | AuthTest => true
  | _ => false
  end.

Definition not_identity_fetch (q : Req) : Prop := is_identity_fetch q = false.

Definition is_channel_list (q : Req) : bool :=
  match q with
  | ConversationsList _ _ => true
  | _ => false
  end.

(** ** A fixture workspace *)

Module Fixture.
Definition general : Channel.t := Channel.make "C1" "general" "general".
Definition random : Channel.t := Channel.make "C2" "random" "random".

Definition g1 := Message.make (Some "<@U123> standup at ten") "1700000300.000100".
Definition g2 := Message.make (Some "thanks <@U123>") "1700000200.000100".
Definition g3 := Message.make (Some "ping <@U123>?") "1700000100.000100".
Definition r1 := Message.make (Some "<@U123> lunch") "1700000030.000100".
Definition r2 := Message.make (Some "<@U123> coffee") "1700000020.000100".
Definition r3 := Message.make (Some "hey <@U123>") "1700000010.000100".

Definition history (channel : string) : list Message.t :=
  if (channel =? "C1")%string then [g1; g2; g3]
  else if (channel =? "C2")%string then [r1; r2; r3]
  else [].

(** A workspace with the two channels; the history of the channels in
    [down] is answered with [ok: false], and [auth.test] names [U123]. *)
Definition upstream (down : list string) (q : Req) (u : unit)
  : unit * FetchResult (Resp q) :=
  (u,
   match q as q0 return FetchResult (Resp q0) with
   | ConversationsList limit _ =>
       Resolved (ChannelsResponse.make true (firstn (Z.to_nat limit) [general; random]))
   | ConversationsHistory channel limit =>
       if existsb (String.eqb channel) down
       then Resolved (HistoryResponse.make false [])
       else Resolved (HistoryResponse.make true (firstn (Z.to_nat limit) (history channel)))
   | ConversationsReplies _ _ => Resolved (RawJson "{ok:true}")
   | ChatPostMessage _ _ _ => Resolved (RawJson "{ok:true}")
   | UsersList _ _ => Resolved (RawJson "{ok:true}")
   | UsersProfileGet _ => Resolved (RawJson "{ok:true}")
   | AuthTest => Resolved (AuthTestResponse.make true (Some "U123"))
   end).

Definition client : SlackClient := {| botToken := "xoxb-fixture" |}.

Definition started : ServerState :=
  {| slackClient := Some client; slackBotUserId := Some "U123" |}.

Definition no_this : ServerState :=
  {| slackClient := None; slackBotUserId := None |}.

Definition mentions_in_general : CallToolRequest :=
  {| name := "get_mentions_on_slack";
     arguments := Some (Args.make (Some "C1") None None None None None None) |}.
End Fixture.

(** ** Tool listings *)

(** A tool definition, as [ListTools] returns it: its name and, of its
    input schema, the property keys with their defaults, the [required]
    keys and the [anyOf] alternatives.  The descriptions are left out. *)
Record ToolDefinition : Type := {
  tool_name : string;
  properties : list (string * option Z);
  required : list string;
  anyOf : list (list string)
}.

Definition channel_alternatives : list (list string) :=
  [["channel_id"]; ["channel_name"]].



Definition listChannelsTool : ToolDefinition :=
  {| tool_name := "channels_list_on_slack";
     properties := [("limit", Some 100); ("cursor", None)];
     required := [];
     anyOf := [] |}.

Definition postMessageTool : ToolDefinition :=
  {| tool_name := "send_message_on_slack";
     properties := [("channel_id", None); ("channel_name", None); ("text", None)];
     required := ["text"];
     anyOf := channel_alternatives |}.

Definition replyToThreadTool : ToolDefinition :=
  {| tool_name := "reply_to_thread_on_slack";
     properties := [("channel_id", None); ("channel_name", None);
                    ("thread_ts", None); ("text", None)];
     required := ["thread_ts"; "text"];
     anyOf := channel_alternatives |}.

Definition getChannelHistoryTool : ToolDefinition :=
  {| tool_name := "get_channel_history_on_slack";
     properties := [("channel_id", None); ("channel_name", None); ("limit", Some 10)];
     required := ["limit"];
     anyOf := channel_alternatives |}.

Definition getThreadRepliesTool : ToolDefinition :=
  {| tool_name := "get_thread_replies_on_slack";
     properties := [("channel_id", None); ("channel_name", None); ("thread_ts", None)];
     required := ["thread_ts"];
     anyOf := channel_alternatives |}.

Definition getUsersTool : ToolDefinition :=
  {| tool_name := "get_users_on_slack";
     properties := [("cursor", None); ("limit", Some 100)];
     required := [];
     anyOf := [] |}.

Definition getUserProfileTool : ToolDefinition :=
  {| tool_name := "get_user_profile_on_slack";
     properties := [("user_id", None)];
     required := ["user_id"];
     anyOf := [] |}.

(** The handler for [ListToolsRequestSchema] of the function-based server. *)
Definition Standalone_ListTools : list ToolDefinition :=
  [getUsersTool; getUserProfileTool; postMessageTool; replyToThreadTool;
   getThreadRepliesTool; listChannelsTool; getChannelHistoryTool].


(** The argument of a call that a schema key names, as a truthiness test. *)
Definition key_is_truthy (key : string) (args : Args.t) : bool :=
  if (key =? "channel_id")%string then truthy (Args.channel_id args)
  else if (key =? "channel_name")%string then truthy (Args.channel_name args)
  else if (key =? "text")%string then truthy (Args.text args)
  else if (key =? "thread_ts")%string then truthy (Args.thread_ts args)
  else if (key =? "user_id")%string then truthy (Args.user_id args)
  else if (key =? "limit")%string then truthy_number (Args.limit args)
  else if (key =? "cursor")%string then truthy (Args.cursor args)
  else false.

(** ** Invariants of the server object *)

(** Run on the server object [s], every object the program writes
    satisfies [I]. *)
Fixpoint establishes (I : ServerState -> Prop) (s : ServerState) (A : Type) (m : Prog A)
  : Prop :=
  match m with
  | Ret _ => True
  | Throw _ => True
  | Fetch q k => forall r, establishes I s (k r)
  | ReadThis k => establishes I s (k s)
  | WriteThis s' k => I s' /\ establishes I s' k
  end.

(** The client is the one [run()] installed and the cached bot user id
    is either absent or a non-empty string. *)
Definition object_invariant (client : option SlackClient) (s : ServerState) : Prop :=
  slackClient s = client /\
  (slackBotUserId s = None \/ truthy (slackBotUserId s) = true).

(** Whether an [auth.test] answer yields a bot user id. *)
Definition obtained_id (answer : FetchResult AuthTestResponse.t) : option string :=
  match answer with
  | Resolved data =>
      if AuthTestResponse.ok data && truthy (AuthTestResponse.user_id data)
      then AuthTestResponse.user_id data
      else None
  | Rejected _ => None
  end.

(** ** A workspace whose first [auth.test] fails *)

Module Flaky.
(** The state counts the [auth.test] calls answered so far; the first one
    is answered with [ok: false], the later ones name [U123].  Every other
    request is answered as in [Fixture.upstream]. *)
Definition upstream (q : Req) (n : nat) : nat * FetchResult (Resp q) :=
  match q as q0 return nat * FetchResult (Resp q0) with
  | AuthTest =>
      (S n, Resolved (AuthTestResponse.make (negb (Nat.eqb n 0))
                        (if Nat.eqb n 0 then None else Some "U123")))
  | ConversationsList l c => (n, snd (Fixture.upstream [] (ConversationsList l c) tt))
  | ConversationsHistory c l => (n, snd (Fixture.upstream [] (ConversationsHistory c l) tt))
  | ConversationsReplies c t => (n, snd (Fixture.upstream [] (ConversationsReplies c t) tt))
  | ChatPostMessage c t x => (n, snd (Fixture.upstream [] (ChatPostMessage c t x) tt))
  | UsersList l c => (n, snd (Fixture.upstream [] (UsersList l c) tt))
  | UsersProfileGet x => (n, snd (Fixture.upstream [] (UsersProfileGet x) tt))
  end.

Definition client_only : ServerState :=
  {| slackClient := Some Fixture.client; slackBotUserId := None |}.
End Flaky.

(** ** A workspace where the history of [general] cannot be fetched *)

Module Outage.
(** The history call for [C1] is rejected; every other request is
    answered as in [Fixture.upstream]. *)
Definition upstream (q : Req) (u : unit) : unit * FetchResult (Resp q) :=
  match q as q0 return unit * FetchResult (Resp q0) with
  | ConversationsHistory c l =>
      if (c =? "C1")%string
      then (u, Rejected (TypeError "fetch failed"))
      else Fixture.upstream [] (ConversationsHistory c l) u
  | ConversationsList l c => Fixture.upstream [] (ConversationsList l c) u
  | ConversationsReplies c t => Fixture.upstream [] (ConversationsReplies c t) u
  | ChatPostMessage c t x => Fixture.upstream [] (ChatPostMessage c t x) u
  | UsersList l c => Fixture.upstream [] (UsersList l c) u
  | UsersProfileGet x => Fixture.upstream [] (UsersProfileGet x) u
  | AuthTest => Fixture.upstream [] AuthTest u
  end.
End Outage.

(** ** A workspace that answers a history request whatever its limit *)

Module Lenient.
(** The history of a channel is answered in full, whatever limit the
    request carries; every other request is answered as in
    [Fixture.upstream]. *)
Definition upstream (q : Req) (u : unit) : unit * FetchResult (Resp q) :=
  match q as q0 return unit * FetchResult (Resp q0) with
  | ConversationsHistory c l =>
      (u, Resolved (HistoryResponse.make true (Fixture.history c)))
  | ConversationsList l c => Fixture.upstream [] (ConversationsList l c) u
  | ConversationsReplies c t => Fixture.upstream [] (ConversationsReplies c t) u
  | ChatPostMessage c t x => Fixture.upstream [] (ChatPostMessage c t x) u
  | UsersList l c => Fixture.upstream [] (UsersList l c) u
  | UsersProfileGet x => Fixture.upstream [] (UsersProfileGet x) u
  | AuthTest => Fixture.upstream [] AuthTest u
  end.
End Lenient.

(** ** The weather example server (first module of [src/build/index.js]) *)

Module Weather.

(** A JavaScript number the server only passes on, from the geocoding
    answer into the forecast URL. *)
Inductive Number : Type := number (decimal : string).

Record Location : Type := { latitude : Number; longitude : Number }.

(** [data.results] may be absent. *)
Record GeocodingResponse : Type := { results : option (list Location) }.

Record ForecastResponse : Type := { current_weather : option Json }.

Inductive Req : Type :=
| GeocodingSearch (name : string)                  (* ...search?name=<city>&count=1 *)
| Forecast (latitude longitude : Number).          (* ...forecast?...&current_weather=true *)

Definition Resp (q : Req) : Type :=
  match q with
  | GeocodingSearch _ => GeocodingResponse
  | Forecast _ _ => ForecastResponse
  end.

Inductive Prog (A : Type) : Type :=
| Ret (a : A)
| Throw (e : JsError)
| Fetch (q : Req) (k : FetchResult (Resp q) -> Prog A).
Arguments Throw {A} e.

Fixpoint bind (A B : Type) (m : Prog A) (f : A -> Prog B) : Prog B :=
  match m with
  | Ret a => f a
  | Throw e => Throw e
  | Fetch q k => Fetch q (fun r => bind (k r) f)
  end.

Definition await (q : Req) : Prog (Resp q) :=
  Fetch q (fun r => match r with
                    | Resolved v => Ret v
                    | Rejected e => Throw e
                    end).

(** The requests issued, in order, and how the program ended, against an
    upstream with state [U]. *)
Fixpoint exec (U A : Type) (upstream : forall q : Req, U -> U * FetchResult (Resp q))
  (m : Prog A) (u : U) : list Req * Outcome A :=
  match m with
  | Ret a => ([], Returned a)
  | Throw e => ([], Thrown e)
  | Fetch q k =>
      let (u', r) := upstream q u in
      let (calls, outcome) := exec upstream (k r) u' in
      (q :: calls, outcome)
  end.

Definition getCoordinates (city : string) : Prog (option (Number * Number)) :=
  bind (await (GeocodingSearch city)) (fun data =>
    match results data with
    | Some (first :: _) => Ret (Some (latitude first, longitude first))
    | _ => Ret None
    end).

Definition getWeather (lat lon : Number) : Prog ForecastResponse :=
  await (Forecast lat lon).

Record Args : Type := { city : option string }.

Record CallToolRequest : Type := {
  name : string;
  arguments : option Args
}.

(** The text of the single content block of a result. *)
Inductive Text : Type :=
| CouldNotFindCoordinates (city : string)
    (* `Could not find coordinates for city: ${args.city}` *)
| CurrentWeather (city : string) (current_weather : option Json).
    (* `Current weather in ${args.city}: ${JSON.stringify(weather.current_weather)}` *)

(** The handler registered for [CallToolRequestSchema]. *)
Definition CallToolRequestHandler (request : CallToolRequest) : Prog Text :=
  if (name request =? "get_weather")%string
  then
    match arguments request with
    | None => Throw (TypeError "Cannot read properties of undefined (reading 'city')")
    | Some args =>
        match as_truthy (city args) with
        | None => Throw (Error "Missing required argument: city")
        | Some city =>
            bind (getCoordinates city) (fun coords =>
              match coords with
              | None => Ret (CouldNotFindCoordinates city)
              | Some (lat, lon) =>
                  bind (getWeather lat lon) (fun weather =>
                    Ret (CurrentWeather city (current_weather weather)))
              end)
        end
    end
  else Throw (Error ("Unknown tool: " ++ name request)).

(** An open-meteo double: London is known, with two candidate
    locations; every other city has no result. *)
Definition fixture (q : Req) (u : unit) : unit * FetchResult (Resp q) :=
  (u,
   match q as q0 return FetchResult (Resp q0) with
   | GeocodingSearch city =>
       if (city =? "London")%string
       then Resolved {| results := Some [ {| latitude := number "51.50853";
                                             longitude := number "-0.12574" |};
                                          {| latitude := number "42.98339";
                                             longitude := number "-81.23304" |} ] |}
       else Resolved {| results := None |}
   | Forecast _ _ => Resolved {| current_weather := Some (RawJson "{temperature:11.4}") |}
   end).

End Weather.

(** * Properties *)

(** ** Strings *)

Lemma append_assoc (a b c : string) : (a ++ b) ++ c = a ++ b ++ c.
Proof. induction a as [|x a IH]; simpl; [reflexivity | now rewrite IH]. Qed.

Lemma starts_with_iff (needle hay : string) :
  starts_with needle hay = true <-> exists post, hay = needle ++ post.
Proof.
  revert hay; induction needle as [|a needle IH]; intros hay; simpl.
  - split; [intros _; now exists hay | reflexivity].
  - destruct hay as [|b hay].
    + split; [discriminate | intros [post H]; discriminate].
    + rewrite andb_true_iff, Ascii.eqb_eq, IH. split.
      * intros [-> [post ->]]. now exists post.
      * intros [post H]. injection H as -> ->. split; [reflexivity | now exists post].
Qed.

Lemma includes_iff (hay needle : string) :
  includes hay needle = true <-> exists pre post, hay = pre ++ needle ++ post.
Proof.
  induction hay as [|c hay IH].
  - simpl. rewrite orb_false_r, starts_with_iff. split.
    + intros [post H]. now exists "", post.
    + intros [pre [post H]]. destruct pre as [|p pre]; [now exists post | discriminate].
  - cbn [includes]. rewrite orb_true_iff, starts_with_iff, IH. split.
    + intros [[post H] | [pre [post H]]].
      * now exists "", post.
      * exists (String c pre), post. simpl. now rewrite H.
    + intros [pre [post H]]. destruct pre as [|p pre].
      * left. now exists post.
      * right. simpl in H. injection H as _ H. now exists pre, post.
Qed.

Lemma as_truthy_Some (s : string) : s <> "" -> as_truthy (Some s) = Some s.
Proof.
  intros H. unfold as_truthy. destruct (String.eqb_spec s ""); [contradiction | reflexivity].
Qed.

Lemma truthy_false (v : option string) : truthy v = false -> as_truthy v = None.
Proof. unfold truthy. destruct (as_truthy v); [discriminate | reflexivity]. Qed.

(** ** Lists *)

Lemma name_matches_iff (n : string) (ch : Channel.t) :
  name_matches n ch = true <-> Channel.name ch = n \/ Channel.name_normalized ch = n.
Proof. unfold name_matches. now rewrite orb_true_iff, !String.eqb_eq. Qed.

Lemma find_first (A : Type) (f : A -> bool) (pre : list A) (x : A) (post : list A) :
  (forall y, In y pre -> f y = false) -> f x = true ->
  find f (pre ++ x :: post) = Some x.
Proof.
  induction pre as [|y pre IH]; simpl; intros Hpre Hx.
  - now rewrite Hx.
  - rewrite (Hpre y (or_introl eq_refl)). apply IH; auto.
Qed.

Lemma find_none_all (A : Type) (f : A -> bool) (l : list A) :
  (forall y, In y l -> f y = false) -> find f l = None.
Proof.
  induction l as [|y l IH]; simpl; intros H; [reflexivity|].
  rewrite (H y (or_introl eq_refl)). apply IH; auto.
Qed.

Lemma slice0_firstn (A : Type) (xs : list A) (e : Z) :
  0 <= e -> slice0 xs e = firstn (Z.to_nat e) xs.
Proof.
  intros He. unfold slice0. destruct (Z.ltb_spec e 0); [lia|].
  destruct (Z.le_gt_cases e (Z.of_nat (length xs))).
  - now rewrite Z.min_l.
  - rewrite Z.min_r by lia. rewrite Nat2Z.id, firstn_all.
    symmetry. apply firstn_all2. lia.
Qed.

(** ** Executions *)

Section ExecFacts.
Context {U : Type}.
Variable upstream : forall q : Req, U -> U * FetchResult (Resp q).

Lemma exec_bind (A B : Type) (m : Prog A) (f : A -> Prog B) this u :
  exec upstream (bind m f) this u
  = then_exec (exec upstream m this u) (fun a => exec upstream (f a)).
Proof.
  revert this u. induction m as [a|e|q k IH|k IH|s k IH]; intros this u; simpl.
  - unfold then_exec; simpl. now destruct (exec upstream (f a) this u).
  - reflexivity.
  - destruct (upstream q u) as [u' r]. rewrite IH. unfold then_exec; simpl.
    now destruct (outcome (exec upstream (k r) this u')).
  - apply IH.
  - apply IH.
Qed.

Lemma exec_try_catch_ret (A : Type) (m : Prog A) (g : JsError -> A) this u :
  let r := exec upstream m this u in
  exec upstream (try_catch m (fun e => Ret (g e))) this u
  = mkExecution (upstream_after r) (this_after r) (calls r)
      (match outcome r with
       | Returned a => Returned a
       | Thrown e => Returned (g e)
       end).
Proof.
  revert this u. induction m as [a|e|q k IH|k IH|s k IH]; intros this u; simpl.
  - reflexivity.
  - reflexivity.
  - destruct (upstream q u) as [u' r]. simpl. now rewrite IH.
  - apply IH.
  - apply IH.
Qed.

Lemma never_throws_returns (A : Type) (m : Prog A) this u :
  never_throws m -> exists a, outcome (exec upstream m this u) = Returned a.
Proof.
  revert this u. induction m as [a|e|q k IH|k IH|s k IH]; intros this u H; simpl in *.
  - now exists a.
  - contradiction.
  - destruct (upstream q u) as [u' r]. simpl. apply IH, H.
  - apply IH, H.
  - apply IH, H.
Qed.

Lemma keeps_exec (P : Req -> Prop) (A : Type) (m : Prog A) s u :
  keeps P s m ->
  this_after (exec upstream m s u) = s /\ Forall P (calls (exec upstream m s u)).
Proof.
  revert u. induction m as [a|e|q k IH|k IH|s' k IH]; intros u H; simpl in *.
  - now split.
  - now split.
  - destruct H as [Hq Hk]. destruct (upstream q u) as [u' r]. simpl.
    destruct (IH r u' (Hk r)) as [H1 H2]. split; [assumption | now constructor].
  - apply IH, H.
  - destruct H as [-> H]. apply IH, H.
Qed.
End ExecFacts.

Lemma never_throws_bind (A B : Type) (m : Prog A) (f : A -> Prog B) :
  never_throws m -> (forall a, never_throws (f a)) -> never_throws (bind m f).
Proof.
  intros Hm Hf. induction m as [a|e|q k IH|k IH|s k IH]; simpl in *; auto.
Qed.

Lemma never_throws_try_catch (A : Type) (m : Prog A) (h : JsError -> Prog A) :
  (forall e, never_throws (h e)) -> never_throws (try_catch m h).
Proof.
  intros Hh. induction m as [a|e|q k IH|k IH|s k IH]; simpl in *; auto.
Qed.

Lemma keeps_bind (P : Req -> Prop) s (A B : Type) (m : Prog A) (f : A -> Prog B) :
  keeps P s m -> (forall a, keeps P s (f a)) -> keeps P s (bind m f).
Proof.
  intros Hm Hf. induction m as [a|e|q k IH|k IH|s' k IH]; simpl in *; auto.
  - destruct Hm as [Hq Hk]. split; auto.
  - destruct Hm as [-> Hk]. split; auto.
Qed.

Lemma keeps_try_catch (P : Req -> Prop) s (A : Type) (m : Prog A) (h : JsError -> Prog A) :
  keeps P s m -> (forall e, keeps P s (h e)) -> keeps P s (try_catch m h).
Proof.
  intros Hm Hh. induction m as [a|e|q k IH|k IH|s' k IH]; simpl in *; auto.
  - destruct Hm as [Hq Hk]. split; auto.
  - destruct Hm as [-> Hk]. split; auto.
Qed.

Lemma keeps_await (P : Req -> Prop) s (q : Req) : P q -> keeps P s (await q).
Proof. intros H. simpl. split; [assumption|]. now intros [v|e]. Qed.

(** ** The channel resolver *)

(** [getChannels(200)] asks for one page of 200 channels, without cursor. *)
Lemma getChannels_200 (slackClient : SlackClient) :
  getChannels slackClient (Some 200) None = await (ConversationsList 200 None).
Proof. reflexivity. Qed.

Section Resolver.
Context {U : Type}.
Variable upstream : forall q : Req, U -> U * FetchResult (Resp q).

(** What [resolveChannelId] does when only a name is given, in terms of
    the answer to its one list call. *)
Lemma exec_resolve_by_name slackClient channel_id (channel_name : string) this u :
  truthy channel_id = false -> channel_name <> "" ->
  exec upstream (resolveChannelId slackClient channel_id (Some channel_name)) this u
  = let (u', r) := upstream (ConversationsList 200 None) u in
    mkExecution u' this [ConversationsList 200 None]
      match r with
      | Rejected e => Thrown e
      | Resolved channelsResp =>
          if ChannelsResponse.ok channelsResp
          then match find (name_matches channel_name)
                       (ChannelsResponse.channels channelsResp) with
               | Some ch => Returned (Channel.id ch)
               | None => Thrown (not_found channel_name)
               end
          else Thrown (Error "Failed to fetch channels list")
      end.
Proof.
  intros Hid Hname. unfold resolveChannelId.
  rewrite (truthy_false _ Hid), (as_truthy_Some Hname), getChannels_200.
  simpl.
  destruct (upstream (ConversationsList 200 None) u) as [u' [resp|e]]; simpl;
    [|reflexivity].
  destruct (ChannelsResponse.ok resp); simpl; [|reflexivity].
  now destruct (find (name_matches channel_name) (ChannelsResponse.channels resp)).
Qed.
End Resolver.

(** C7. When an identifier is present (a non-empty string), the resolver
    is the program that returns it: it contains no upstream request,
    whatever name is supplied with it, so every execution issues no call
    and returns the identifier unchanged. *)
Theorem resolve_by_identifier_is_immediate :
  forall (slackClient : SlackClient) (channel_id : string) (channel_name : option string),
    channel_id <> "" ->
    resolveChannelId slackClient (Some channel_id) channel_name = Ret channel_id /\
    forall (U : Type) (upstream : forall q : Req, U -> U * FetchResult (Resp q)) this u,
      exec upstream (resolveChannelId slackClient (Some channel_id) channel_name) this u
      = mkExecution u this [] (Returned channel_id).
Proof.
  intros slackClient channel_id channel_name Hid.
  assert (E : resolveChannelId slackClient (Some channel_id) channel_name = Ret channel_id).
  { unfold resolveChannelId. now rewrite (as_truthy_Some Hid). }
  split; [exact E|]. intros U upstream this u. now rewrite E.
Qed.

Lemma resolve_by_identifier_is_immediate_witness :
  "C024BE91L" <> "" /\
  resolveChannelId Fixture.client (Some "C024BE91L") (Some "general") = Ret "C024BE91L".
Proof.
  split; [discriminate|].
  apply (resolve_by_identifier_is_immediate Fixture.client (Some "general")).
  discriminate.
Defined.

(** C1. With no identifier and a name present, the resolver issues exactly
    one upstream call, the channel list with page size 200.  When that
    call answers with a page of channels, the result is the identifier of
    the first channel of the page whose name or normalized name is equal
    to the requested name; when no channel of the page has that name the
    resolver throws the not-found error, whose message quotes the
    requested name. *)
Theorem resolve_by_name_first_match_or_not_found :
  forall (U : Type) (upstream : forall q : Req, U -> U * FetchResult (Resp q))
         slackClient (channel_id : option string) (channel_name : string) this u,
    truthy channel_id = false -> channel_name <> "" ->
    let r := exec upstream (resolveChannelId slackClient channel_id (Some channel_name)) this u in
    calls r = [ConversationsList 200 None] /\
    forall u' page,
      upstream (ConversationsList 200 None) u
      = (u', Resolved (ChannelsResponse.make true page)) ->
      (forall pre ch post,
          page = (pre ++ ch :: post)%list ->
          (forall c, In c pre ->
                     Channel.name c <> channel_name /\
                     Channel.name_normalized c <> channel_name) ->
          Channel.name ch = channel_name \/ Channel.name_normalized ch = channel_name ->
          outcome r = Returned (Channel.id ch)) /\
      ((forall c, In c page ->
                  Channel.name c <> channel_name /\
                  Channel.name_normalized c <> channel_name) ->
       outcome r = Thrown (Error ("Channel with name '" ++ channel_name ++ "' not found"))).
Proof.
  intros U upstream slackClient channel_id channel_name this u Hid Hname r.
  subst r. rewrite exec_resolve_by_name by assumption.
  assert (Hno : forall c,
             Channel.name c <> channel_name /\ Channel.name_normalized c <> channel_name ->
             name_matches channel_name c = false).
  { intros c [H1 H2]. destruct (name_matches channel_name c) eqn:E; [|reflexivity].
    apply name_matches_iff in E. tauto. }
  destruct (upstream (ConversationsList 200 None) u) as [u1 ans] eqn:Hup.
  split; [reflexivity|].
  intros u' page Heq. injection Heq as _ ->. simpl. split.
  - intros pre ch post -> Hpre Hch.
    rewrite find_first; [reflexivity | | now apply name_matches_iff].
    intros y Hy. apply Hno, Hpre, Hy.
  - intros Hall. rewrite find_none_all; [reflexivity|].
    intros y Hy. apply Hno, Hall, Hy.
Qed.

Lemma resolve_by_name_first_match_or_not_found_witness :
  outcome (exec (Fixture.upstream []) (resolveChannelId Fixture.client None (Some "random"))
             Fixture.no_this tt) = Returned "C2" /\
  outcome (exec (Fixture.upstream []) (resolveChannelId Fixture.client None (Some "Random"))
             Fixture.no_this tt)
  = Thrown (Error "Channel with name 'Random' not found").
Proof.
  split.
  - destruct (@resolve_by_name_first_match_or_not_found unit (Fixture.upstream [])
                Fixture.client None "random" Fixture.no_this tt eq_refl
                ltac:(discriminate)) as [_ H].
    destruct (H tt [Fixture.general; Fixture.random] eq_refl) as [Hfirst _].
    apply (Hfirst [Fixture.general] Fixture.random []).
    + reflexivity.
    + intros c [<-|[]]. split; discriminate.
    + left; reflexivity.
  - destruct (@resolve_by_name_first_match_or_not_found unit (Fixture.upstream [])
                Fixture.client None "Random" Fixture.no_this tt eq_refl
                ltac:(discriminate)) as [_ H].
    destruct (H tt [Fixture.general; Fixture.random] eq_refl) as [_ Hnone].
    apply Hnone. intros c [<-|[<-|[]]]; split; discriminate.
Defined.

(** ** The mention filter *)

(** C2. A message with text [t] passes the mention filter for identity [u]
    exactly when [t] contains the delimited marker [<@u>] as a substring;
    the filter of a list keeps exactly the messages that pass.  A message
    carrying the marker of [U123] is kept for [U123]; a message carrying
    only the marker of [U1234] is not, because the closing delimiter has to
    follow the identifier. *)
Theorem mention_filter_is_marker_substring :
  (forall (u t ts : string),
      is_mentioned u (Message.make (Some t) ts) = true
      <-> exists pre post, t = pre ++ "<@" ++ u ++ ">" ++ post) /\
  (forall (u : string) (msgs : list Message.t) (m : Message.t),
      In m (filter (is_mentioned u) msgs) <-> In m msgs /\ is_mentioned u m = true) /\
  is_mentioned "U123" (Message.make (Some "deploy done <@U123> please check") "1.1") = true /\
  is_mentioned "U123" (Message.make (Some "deploy done <@U1234> please check") "1.2") = false.
Proof.
  split; [|split; [|split]].
  - intros u t ts. unfold is_mentioned, mentionTag, as_truthy.
    cbn [Message.text].
    destruct (String.eqb_spec t "") as [->|Hne].
    + split; [discriminate|]. intros [pre [post H]]. destruct pre; discriminate.
    + rewrite includes_iff. split; intros [pre [post H]]; exists pre, post;
        [rewrite !append_assoc in H | rewrite !append_assoc]; exact H.
  - intros u msgs m. apply filter_In.
  - reflexivity.
  - reflexivity.
Qed.

(** ** The mention scanner *)

Lemma collect_resolved (pages : list (FetchResult HistoryResponse.t)) (acc : list Message.t) :
  Forall (@is_resolved _) pages ->
  collect pages acc = Returned (acc ++ concat (map page_messages pages))%list.
Proof.
  intros H. revert acc. induction H as [|p pages Hp _ IH]; intros acc; simpl.
  - now rewrite app_nil_r.
  - destruct p as [data|e]; [|contradiction]. rewrite IH. simpl.
    destruct (HistoryResponse.ok data); [now rewrite app_assoc | reflexivity].
Qed.

Lemma collect_rejected (pre post : list (FetchResult HistoryResponse.t)) (e : JsError)
  (acc : list Message.t) :
  Forall (@is_resolved _) pre ->
  collect (pre ++ Rejected e :: post) acc = Thrown e.
Proof.
  intros H. revert acc. induction H as [|p pre Hp _ IH]; intros acc; simpl.
  - reflexivity.
  - destruct p as [data|e']; [apply IH | contradiction].
Qed.

Section Scanner.
Context {U : Type}.
Variable upstream : forall q : Req, U -> U * FetchResult (Resp q).

Lemma exec_for_each_channel limit chs acc this u :
  let r := exec upstream (for_each_channel limit chs acc) this u in
  outcome r = collect (history_pages upstream limit chs u) acc /\
  this_after r = this /\
  (exists n, calls r = map (history_request limit) (firstn n chs)) /\
  (Forall (@is_resolved _) (history_pages upstream limit chs u) ->
   calls r = map (history_request limit) chs).
Proof.
  revert acc u. induction chs as [|ch chs IH]; intros acc u; simpl.
  - split; [reflexivity|]. split; [reflexivity|]. split; [now exists 0%nat | reflexivity].
  - destruct (upstream (ConversationsHistory (Channel.id ch) limit) u) as [u' [data|e]];
      simpl.
    + destruct (IH (if HistoryResponse.ok data
                    then (acc ++ HistoryResponse.messages data)%list else acc) u')
        as (Ho & Ht & [n Hn] & Hall).
      split; [exact Ho|]. split; [exact Ht|]. split.
      * exists (S n). simpl. now rewrite Hn.
      * intros H. inversion H; subst. unfold history_request at 1. f_equal. now apply Hall.
    + split; [reflexivity|]. split; [reflexivity|]. split.
      * now exists 1%nat.
      * intros H. inversion H; subst. contradiction.
Qed.

(** The scan without a channel scope, in terms of the answer to the
    list call and of the per-channel loop. *)
Lemma exec_getMentions_unscoped slackClient args userId this u :
  truthy (Args.channel_id args) = false ->
  truthy (Args.channel_name args) = false ->
  let limit := or_default (Args.limit args) 10 in
  exec upstream (getMentions slackClient args userId) this u
  = let (u1, r) := upstream (ConversationsList 200 None) u in
    match r with
    | Rejected e => mkExecution u1 this [ConversationsList 200 None] (Thrown e)
    | Resolved channelsResp =>
        if ChannelsResponse.ok channelsResp
        then
          let loop := exec upstream
                        (for_each_channel limit (ChannelsResponse.channels channelsResp) [])
                        this u1 in
          mkExecution (upstream_after loop) (this_after loop)
            (ConversationsList 200 None :: calls loop)
            match outcome loop with
            | Returned messages =>
                Returned (HistoryResponse.make true
                            (slice0 (filter (is_mentioned userId) messages) limit))
            | Thrown e => Thrown e
            end
        else mkExecution u1 this [ConversationsList 200 None]
               (Thrown (Error "Failed to fetch channels list"))
    end.
Proof.
  intros Hid Hname limit. subst limit. unfold getMentions.
  rewrite (truthy_false _ Hid), Hname, getChannels_200. simpl.
  destruct (upstream (ConversationsList 200 None) u) as [u1 [resp|e]]; simpl;
    [|reflexivity].
  destruct (ChannelsResponse.ok resp); simpl; [|reflexivity].
  rewrite exec_bind. unfold then_exec.
  destruct (outcome (exec upstream
              (for_each_channel (or_default (Args.limit args) 10)
                 (ChannelsResponse.channels resp) []) this u1)); simpl.
  - now rewrite app_nil_r.
  - reflexivity.
Qed.
End Scanner.

(** C3. A scan without channel scope, over a page of channels the list
    call returned, issues the list call and then one history request per
    channel in page order, each for [limit] messages.  Its result is the
    concatenation of the channels' answers in that order (each in the
    order the upstream returned it), filtered to the messages that carry
    the identity marker, cut to its first [limit] entries.  [limit] is the
    effective limit [args.limit || 10], read as a count. *)
Theorem unscoped_scan_is_concat_filter_truncate :
  forall (U : Type) (upstream : forall q : Req, U -> U * FetchResult (Resp q))
         slackClient (args : Args.t) (userId : string) this (u u1 : U)
         (page : list Channel.t),
    truthy (Args.channel_id args) = false ->
    truthy (Args.channel_name args) = false ->
    upstream (ConversationsList 200 None) u
    = (u1, Resolved (ChannelsResponse.make true page)) ->
    let limit := or_default (Args.limit args) 10 in
    let pages := history_pages upstream limit page u1 in
    Forall (@is_resolved _) pages ->
    0 <= limit ->
    let r := exec upstream (getMentions slackClient args userId) this u in
    calls r = ConversationsList 200 None
              :: map (fun ch => ConversationsHistory (Channel.id ch) limit) page /\
    outcome r = Returned (HistoryResponse.make true
                  (firstn (Z.to_nat limit)
                     (filter (is_mentioned userId) (concat (map page_messages pages))))).
Proof.
  intros U upstream slackClient args userId this u u1 page Hid Hname Hlist limit pages
         Hpages Hlimit r.
  subst r. rewrite exec_getMentions_unscoped by assumption. rewrite Hlist. simpl.
  destruct (exec_for_each_channel upstream limit page [] this u1) as (Ho & _ & _ & Hc).
  fold limit. split.
  - f_equal. apply Hc, Hpages.
  - rewrite Ho. fold pages. rewrite (collect_resolved [] Hpages). simpl.
    now rewrite slice0_firstn.
Qed.

Lemma unscoped_scan_is_concat_filter_truncate_witness :
  outcome (exec (Fixture.upstream [])
             (getMentions Fixture.client (Args.with_limit (Some 4) Args.empty) "U123")
             Fixture.no_this tt)
  = Returned (HistoryResponse.make true [Fixture.g1; Fixture.g2; Fixture.g3; Fixture.r1]).
Proof.
  apply (@unscoped_scan_is_concat_filter_truncate unit (Fixture.upstream [])
           Fixture.client (Args.with_limit (Some 4) Args.empty) "U123"
           Fixture.no_this tt tt [Fixture.general; Fixture.random]
           eq_refl eq_refl eq_refl).
  - repeat constructor.
  - vm_compute. discriminate.
Defined.


(** C4, as the code has it.  In a scan without channel scope, a list call
    that is rejected or answered with [ok: false] fails the whole scan,
    and a rejected history call of a channel ends the scan with that
    error.  A history answer with [ok: false] does not: the channel adds
    no message ([page_messages]) and the scan goes on to the next
    channel. *)
Theorem unscoped_scan_failure_modes :
  forall (U : Type) (upstream : forall q : Req, U -> U * FetchResult (Resp q))
         slackClient (args : Args.t) (userId : string) this (u u1 : U)
         (answer : FetchResult ChannelsResponse.t),
    truthy (Args.channel_id args) = false ->
    truthy (Args.channel_name args) = false ->
    upstream (ConversationsList 200 None) u = (u1, answer) ->
    let limit := or_default (Args.limit args) 10 in
    let r := exec upstream (getMentions slackClient args userId) this u in
    (forall e, answer = Rejected e -> outcome r = Thrown e) /\
    (forall channelsResp,
        answer = Resolved channelsResp -> ChannelsResponse.ok channelsResp = false ->
        outcome r = Thrown (Error "Failed to fetch channels list") /\
        calls r = [ConversationsList 200 None]) /\
    (forall page,
        answer = Resolved (ChannelsResponse.make true page) ->
        let pages := history_pages upstream limit page u1 in
        (forall pre e post,
            pages = (pre ++ Rejected e :: post)%list -> Forall (@is_resolved _) pre ->
            outcome r = Thrown e) /\
        (Forall (@is_resolved _) pages ->
         outcome r = Returned (HistoryResponse.make true
                       (slice0 (filter (is_mentioned userId)
                                  (concat (map page_messages pages))) limit)))).
Proof.
  intros U upstream slackClient args userId this u u1 answer Hid Hname Hlist limit r.
  subst r. rewrite exec_getMentions_unscoped by assumption. rewrite Hlist.
  split; [|split].
  - intros e ->. reflexivity.
  - intros resp -> Hok. rewrite Hok. now split.
  - intros page -> pages. simpl.
    destruct (exec_for_each_channel upstream limit page [] this u1) as (Ho & _).
    fold limit. rewrite Ho. fold pages. split.
    + intros pre e post -> Hpre. now rewrite collect_rejected.
    + intros Hall. now rewrite (collect_resolved [] Hall).
Qed.

Lemma unscoped_scan_failure_modes_witness :
  outcome (exec (Fixture.upstream ["C1"])
             (getMentions Fixture.client Args.empty "U123") Fixture.no_this tt)
  = Returned (HistoryResponse.make true [Fixture.r1; Fixture.r2; Fixture.r3]).
Proof.
  destruct (@unscoped_scan_failure_modes unit (Fixture.upstream ["C1"]) Fixture.client
              Args.empty "U123" Fixture.no_this tt tt
              (Resolved (ChannelsResponse.make true [Fixture.general; Fixture.random]))
              eq_refl eq_refl eq_refl) as (_ & _ & H).
  destruct (H [Fixture.general; Fixture.random] eq_refl) as [_ Hall].
  apply Hall. repeat constructor.
Defined.

(** C4 as stated fails: the history of [general] is answered with
    [ok: false], and the scan still returns, with the mentions found in
    [random]. *)
Lemma failed_channel_fetch_does_not_fail_scan :
  history_pages (Fixture.upstream ["C1"]) 10 [Fixture.general; Fixture.random] tt
  = [Resolved (HistoryResponse.make false []);
     Resolved (HistoryResponse.make true [Fixture.r1; Fixture.r2; Fixture.r3])] /\
  exec (Fixture.upstream ["C1"]) (getMentions Fixture.client Args.empty "U123")
    Fixture.no_this tt
  = mkExecution tt Fixture.no_this
      [ConversationsList 200 None; ConversationsHistory "C1" 10; ConversationsHistory "C2" 10]
      (Returned (HistoryResponse.make true [Fixture.r1; Fixture.r2; Fixture.r3])).
Proof. split; reflexivity. Qed.

Section ScopedScan.
Context {U : Type}.
Variable upstream : forall q : Req, U -> U * FetchResult (Resp q).

Lemma calls_getMentions_by_id slackClient args userId (channel_id : string) this u :
  as_truthy (Args.channel_id args) = Some channel_id ->
  calls (exec upstream (getMentions slackClient args userId) this u)
  = [ConversationsHistory channel_id (or_default (Args.limit args) 10)].
Proof.
  intros Hid. unfold getMentions. rewrite Hid. cbn [bind].
  assert (Hne : as_truthy (Some channel_id) = Some channel_id).
  { unfold as_truthy in *. destruct (Args.channel_id args) as [s|]; [|discriminate].
    destruct (String.eqb_spec s ""); [discriminate|]. injection Hid as <-.
    destruct (String.eqb_spec s ""); [contradiction | reflexivity]. }
  rewrite Hne. simpl.
  destruct (upstream (ConversationsHistory channel_id (or_default (Args.limit args) 10)) u)
    as [u1 [data|e]]; reflexivity.
Qed.

Lemma calls_getMentions_by_name slackClient args userId (channel_name : string)
  (page : list Channel.t) (ch : Channel.t) this u u1 :
  truthy (Args.channel_id args) = false ->
  as_truthy (Args.channel_name args) = Some channel_name ->
  upstream (ConversationsList 200 None) u
  = (u1, Resolved (ChannelsResponse.make true page)) ->
  find (name_matches channel_name) page = Some ch ->
  Channel.id ch <> "" ->
  calls (exec upstream (getMentions slackClient args userId) this u)
  = [ConversationsList 200 None;
     ConversationsHistory (Channel.id ch) (or_default (Args.limit args) 10)].
Proof.
  intros Hid Hname Hlist Hfind Hch. unfold getMentions.
  rewrite (truthy_false _ Hid). unfold truthy. rewrite Hname.
  unfold resolveChannelId. cbn [as_truthy]. rewrite Hname, getChannels_200.
  apply String.eqb_neq in Hch.
  simpl. rewrite Hlist. simpl. rewrite Hfind. simpl. rewrite Hch. simpl.
  destruct (upstream (ConversationsHistory (Channel.id ch)
                        (or_default (Args.limit args) 10)) u1) as [u2 [data|e]];
    reflexivity.
Qed.
End ScopedScan.

(** C8. A mention scan with a channel scope fetches the messages of that
    one channel only.  Given a channel identifier, its only upstream call
    is the history request for that identifier.  Given a channel name that
    the resolver resolves to a channel, its calls are the one list call of
    the resolution followed by the one history request for the resolved
    identifier; no other list call is issued. *)
Theorem scoped_scan_fetches_one_channel :
  forall (U : Type) (upstream : forall q : Req, U -> U * FetchResult (Resp q))
         slackClient (args : Args.t) (userId : string) this (u : U),
    let limit := or_default (Args.limit args) 10 in
    let r := exec upstream (getMentions slackClient args userId) this u in
    (forall channel_id,
        as_truthy (Args.channel_id args) = Some channel_id ->
        calls r = [ConversationsHistory channel_id limit]) /\
    (forall channel_name u1 page ch,
        truthy (Args.channel_id args) = false ->
        as_truthy (Args.channel_name args) = Some channel_name ->
        upstream (ConversationsList 200 None) u
        = (u1, Resolved (ChannelsResponse.make true page)) ->
        find (name_matches channel_name) page = Some ch ->
        Channel.id ch <> "" ->
        calls r = [ConversationsList 200 None; ConversationsHistory (Channel.id ch) limit] /\
        length (filter is_channel_list (calls r)) = 1%nat).
Proof.
  intros U upstream slackClient args userId this u limit r. subst r limit. split.
  - intros channel_id Hid. now apply calls_getMentions_by_id.
  - intros channel_name u1 page ch Hid Hname Hlist Hfind Hch.
    rewrite (calls_getMentions_by_name upstream slackClient args userId this u
               Hid Hname Hlist Hfind Hch).
    now split.
Qed.

Lemma scoped_scan_fetches_one_channel_witness :
  calls (exec (Fixture.upstream [])
           (getMentions Fixture.client
              (Args.make (Some "C2") None None None None (Some 3) None) "U123")
           Fixture.no_this tt)
  = [ConversationsHistory "C2" 3] /\
  calls (exec (Fixture.upstream [])
           (getMentions Fixture.client
              (Args.make None (Some "random") None None None (Some 3) None) "U123")
           Fixture.no_this tt)
  = [ConversationsList 200 None; ConversationsHistory "C2" 3].
Proof.
  split.
  - apply (@scoped_scan_fetches_one_channel unit (Fixture.upstream []) Fixture.client
             (Args.make (Some "C2") None None None None (Some 3) None) "U123"
             Fixture.no_this tt).
    reflexivity.
  - apply (proj2 (@scoped_scan_fetches_one_channel unit (Fixture.upstream [])
                    Fixture.client
                    (Args.make None (Some "random") None None None (Some 3) None) "U123"
                    Fixture.no_this tt)
             "random" tt [Fixture.general; Fixture.random] Fixture.random
             eq_refl eq_refl eq_refl eq_refl).
    discriminate.
Defined.

(** ** Limits *)

Lemma or_default_falsy (v : option Z) (d : Z) :
  truthy_number v = false -> or_default v d = d.
Proof.
  destruct v as [n|]; simpl; [|reflexivity].
  destruct (n =? 0); [reflexivity | discriminate].
Qed.

Lemma or_default_nonzero (v : option Z) (d : Z) : d <> 0 -> or_default v d <> 0.
Proof.
  intros Hd. destruct v as [n|]; simpl; [|assumption].
  destruct (Z.eqb_spec n 0); assumption.
Qed.

Lemma keeps_resolveChannelId (P : Req -> Prop) s slackClient channel_id channel_name :
  P (ConversationsList 200 None) ->
  keeps P s (resolveChannelId slackClient channel_id channel_name).
Proof.
  intros HP. unfold resolveChannelId.
  destruct (as_truthy channel_id); [exact I|].
  destruct (as_truthy channel_name); [|exact I].
  rewrite getChannels_200. apply keeps_bind; [now apply keeps_await|].
  intros resp. destruct (ChannelsResponse.ok resp); simpl; [|exact I].
  now destruct (find _ _).
Qed.

Lemma keeps_for_each_channel (P : Req -> Prop) s limit chs acc :
  (forall ch, P (ConversationsHistory ch limit)) ->
  keeps P s (for_each_channel limit chs acc).
Proof.
  intros HP. revert acc. induction chs as [|ch chs IH]; intros acc; simpl; [exact I|].
  split; [apply HP|]. intros [data|e]; simpl; [apply IH | exact I].
Qed.

Lemma keeps_getChannelMessages (P : Req -> Prop) s slackClient args :
  P (ConversationsList 200 None) ->
  (forall ch, P (ConversationsHistory ch (or_default (Args.limit args) 5))) ->
  keeps P s (getChannelMessages slackClient args).
Proof.
  intros HL HH. unfold getChannelMessages.
  apply keeps_bind; [now apply keeps_resolveChannelId|].
  intros ch. now apply keeps_await.
Qed.

Lemma keeps_getMentions (P : Req -> Prop) s slackClient args userId :
  P (ConversationsList 200 None) ->
  (forall ch, P (ConversationsHistory ch (or_default (Args.limit args) 10))) ->
  keeps P s (getMentions slackClient args userId).
Proof.
  intros HL HH. unfold getMentions. apply keeps_bind.
  - destruct (as_truthy (Args.channel_id args)); [exact I|].
    destruct (truthy (Args.channel_name args)); [|exact I].
    apply keeps_bind; [now apply keeps_resolveChannelId | intros; exact I].
  - intros channelId. apply keeps_bind; [|intros; exact I].
    destruct (as_truthy channelId).
    + apply keeps_bind; [now apply keeps_await | intros; exact I].
    + rewrite getChannels_200. apply keeps_bind; [now apply keeps_await|].
      intros resp. destruct (ChannelsResponse.ok resp); simpl; [|exact I].
      now apply keeps_for_each_channel.
Qed.

Lemma falsy_limit_cases (v : option Z) :
  truthy_number v = false -> v = None \/ v = Some 0.
Proof.
  destruct v as [n|]; simpl; [|now left].
  destruct (Z.eqb_spec n 0); [subst; now right | discriminate].
Qed.

(** C10. A limit of 0, like any falsy limit, makes [getChannelMessages]
    and [getMentions], and with them the handlers of the two tools in
    both servers, the very programs they are when the limit is absent,
    with 5 and 10 in its place, for the history requests and for the final
    truncation alike.  Whatever the limit, every history request the two
    helpers issue asks for the effective limit, which is never zero, so no
    caller obtains a request for zero messages. *)
Theorem falsy_limit_is_absent_limit :
  forall (slackClient : SlackClient) (args : Args.t) (userId : string),
    (truthy_number (Args.limit args) = false ->
     let absent := Args.with_limit None args in
     getChannelMessages slackClient args = getChannelMessages slackClient absent /\
     getMentions slackClient args userId = getMentions slackClient absent userId /\
     (forall name,
         tool_of_name name = Some get_channel_messages_on_slack \/
         tool_of_name name = Some get_mentions_on_slack ->
         Standalone.CallToolRequestHandler slackClient
           {| name := name; arguments := Some args |}
         = Standalone.CallToolRequestHandler slackClient
             {| name := name; arguments := Some absent |}) /\
     SlackMcpServer.handleGetChannelMessages (Some args)
     = SlackMcpServer.handleGetChannelMessages (Some absent) /\
     SlackMcpServer.handleGetMentions (Some args)
     = SlackMcpServer.handleGetMentions (Some absent) /\
     or_default (Args.limit args) 5 = 5 /\
     or_default (Args.limit args) 10 = 10) /\
    or_default (Args.limit args) 5 <> 0 /\
    or_default (Args.limit args) 10 <> 0 /\
    forall (U : Type) (upstream : forall q : Req, U -> U * FetchResult (Resp q)) this u,
      Forall (history_limit_is (or_default (Args.limit args) 5))
        (calls (exec upstream (getChannelMessages slackClient args) this u)) /\
      Forall (history_limit_is (or_default (Args.limit args) 10))
        (calls (exec upstream (getMentions slackClient args userId) this u)).
Proof.
  intros slackClient args userId. split; [|split; [|split]].
  - intros Hfalsy absent. subst absent.
    destruct args as [cid cname text ts uid limit cursor]. simpl in Hfalsy.
    destruct (falsy_limit_cases _ Hfalsy) as [-> | ->].
    + repeat split; reflexivity.
    + repeat split; try reflexivity. intros name Hname.
      unfold Standalone.CallToolRequestHandler, Standalone.try_block, Standalone.switch.
      simpl. now destruct Hname as [-> | ->].
  - now apply or_default_nonzero.
  - now apply or_default_nonzero.
  - intros U upstream this u. split.
    + apply (keeps_exec upstream). now apply keeps_getChannelMessages.
    + apply (keeps_exec upstream). now apply keeps_getMentions.
Qed.

Lemma falsy_limit_is_absent_limit_witness :
  getMentions Fixture.client (Args.with_limit (Some 0) Args.empty) "U123"
  = getMentions Fixture.client Args.empty "U123" /\
  calls (exec (Fixture.upstream [])
           (getMentions Fixture.client
              (Args.make (Some "C1") None None None None (Some 0) None) "U123")
           Fixture.no_this tt)
  = [ConversationsHistory "C1" 10].
Proof.
  split.
  - apply (proj1 (falsy_limit_is_absent_limit Fixture.client
                    (Args.with_limit (Some 0) Args.empty) "U123")).
    reflexivity.
  - reflexivity.
Defined.

(** ** Dispatch *)

Lemma never_throws_guarded (label : string) (body : SlackClient -> Prog CallToolResult) :
  never_throws (SlackMcpServer.guarded label body).
Proof.
  unfold SlackMcpServer.guarded. simpl. intros s.
  destruct (slackClient s); simpl; [|exact I].
  now apply never_throws_try_catch.
Qed.

Lemma never_throws_fetchBotUserId : never_throws SlackMcpServer.fetchBotUserId.
Proof.
  unfold SlackMcpServer.fetchBotUserId. simpl. intros s.
  destruct (slackClient s); simpl; [|exact I].
  intros [data|e]; simpl; [|exact I].
  now destruct (AuthTestResponse.ok data && truthy (AuthTestResponse.user_id data)).
Qed.

Lemma never_throws_handleGetMentions (args : option Args.t) :
  never_throws (SlackMcpServer.handleGetMentions args).
Proof.
  unfold SlackMcpServer.handleGetMentions. simpl. intros s.
  destruct (slackClient s); simpl; [|exact I].
  apply never_throws_bind.
  - destruct (truthy (slackBotUserId s)); simpl; [exact I|].
    apply never_throws_fetchBotUserId.
  - intros _. simpl. intros s'. destruct (as_truthy (slackBotUserId s')); simpl; [|exact I].
    now apply never_throws_try_catch.
Qed.

Lemma never_throws_method_of (t : Tool) (args : option Args.t) :
  never_throws (SlackMcpServer.method_of t args).
Proof.
  destruct t; simpl;
    try apply never_throws_guarded. apply never_throws_handleGetMentions.
Qed.

Section Dispatch.
Context {U : Type}.
Variable upstream : forall q : Req, U -> U * FetchResult (Resp q).

Lemma exec_guarded (label : string) (body : SlackClient -> Prog CallToolResult)
  (client : SlackClient) this u :
  slackClient this = Some client ->
  let r := exec upstream (body client) this u in
  exec upstream (SlackMcpServer.guarded label body) this u
  = mkExecution (upstream_after r) (this_after r) (calls r)
      match outcome r with
      | Returned result => Returned result
      | Thrown e => Returned (SlackMcpServer.error_result label e)
      end.
Proof.
  intros Hc. unfold SlackMcpServer.guarded. simpl. rewrite Hc.
  apply exec_try_catch_ret.
Qed.
End Dispatch.

Lemma obtained_id_truthy (answer : FetchResult AuthTestResponse.t) (uid : string) :
  obtained_id answer = Some uid -> as_truthy (Some uid) = Some uid /\ uid <> "".
Proof.
  unfold obtained_id. destruct answer as [data|e]; [|discriminate].
  destruct (AuthTestResponse.ok data); simpl; [|discriminate].
  unfold truthy. destruct (AuthTestResponse.user_id data) as [s|]; simpl; [|discriminate].
  destruct (String.eqb_spec s ""); [discriminate|]. intros H. injection H as <-.
  split; [|assumption]. destruct (String.eqb_spec s ""); [contradiction | reflexivity].
Qed.

Section Startup.
Context {U : Type}.
Variable upstream : forall q : Req, U -> U * FetchResult (Resp q).

(** [fetchBotUserId] on a server that has its client: one [auth.test]
    call, after which the field holds the id the answer yields, if any. *)
Lemma exec_fetchBotUserId (client : SlackClient) this u :
  slackClient this = Some client ->
  exec upstream SlackMcpServer.fetchBotUserId this u
  = let (u1, answer) := upstream AuthTest u in
    mkExecution u1
      match obtained_id answer with
      | Some uid => {| slackClient := Some client; slackBotUserId := Some uid |}
      | None => this
      end
      [AuthTest] (Returned tt).
Proof.
  intros Hc. unfold SlackMcpServer.fetchBotUserId. simpl. rewrite Hc. simpl.
  destruct (upstream AuthTest u) as [u1 [data|e]]; simpl; [|reflexivity].
  destruct (AuthTestResponse.ok data); simpl; [|reflexivity].
  unfold truthy. destruct (AuthTestResponse.user_id data) as [s|]; simpl; [|reflexivity].
  destruct (s =? "")%string; simpl; [reflexivity|]. now rewrite Hc.
Qed.
End Startup.

Section Methods.
Context {U : Type}.
Variable upstream : forall q : Req, U -> U * FetchResult (Resp q).

(** What the [catch] of a method makes of the execution of its [try]. *)
Lemma exec_method_of (t : Tool) (args : option Args.t) (client : SlackClient)
  (uid : string) this u :
  slackClient this = Some client ->
  (t = get_mentions_on_slack -> as_truthy (slackBotUserId this) = Some uid) ->
  let body := exec upstream (SlackMcpServer.try_of t client uid args) this u in
  exec upstream (SlackMcpServer.method_of t args) this u
  = mkExecution (upstream_after body) (this_after body) (calls body)
      match outcome body with
      | Returned result => Returned result
      | Thrown e => Returned (SlackMcpServer.error_result (SlackMcpServer.error_label t) e)
      end.
Proof.
  intros Hc Hid body. subst body.
  destruct t;
    cbn [SlackMcpServer.method_of SlackMcpServer.try_of SlackMcpServer.error_label];
    try (unfold SlackMcpServer.handleListChannels, SlackMcpServer.handlePostMessage,
           SlackMcpServer.handleReplyToThread, SlackMcpServer.handleGetChannelHistory,
           SlackMcpServer.handleGetThreadReplies, SlackMcpServer.handleGetUsers,
           SlackMcpServer.handleGetUserProfile, SlackMcpServer.handleGetChannelMessages;
         rewrite (exec_guarded upstream _ _ this u Hc); reflexivity).
  specialize (Hid eq_refl).
  unfold SlackMcpServer.handleGetMentions.
  cbn [bind SlackMcpServer.this exec]. rewrite Hc. unfold truthy. rewrite Hid.
  cbn [negb bind exec]. rewrite Hid. apply exec_try_catch_ret.
Qed.

(** A mention request on a server that does not hold the bot user id. *)
Lemma exec_handleGetMentions_without_id (args : option Args.t) (client : SlackClient)
  this u :
  slackClient this = Some client ->
  truthy (slackBotUserId this) = false ->
  exec upstream (SlackMcpServer.handleGetMentions args) this u
  = let (u1, answer) := upstream AuthTest u in
    match obtained_id answer with
    | None => mkExecution u1 this [AuthTest] (Returned SlackMcpServer.bot_user_id_not_available)
    | Some uid =>
        let this' := {| slackClient := Some client; slackBotUserId := Some uid |} in
        let body := exec upstream
                      (SlackMcpServer.try_of get_mentions_on_slack client uid args)
                      this' u1 in
        mkExecution (upstream_after body) (this_after body) (AuthTest :: calls body)
          match outcome body with
          | Returned result => Returned result
          | Thrown e => Returned (SlackMcpServer.error_result "Error getting mentions: " e)
          end
    end.
Proof.
  intros Hc Hid. unfold SlackMcpServer.handleGetMentions.
  cbn [bind SlackMcpServer.this exec]. rewrite Hc, Hid. cbn [negb].
  rewrite exec_bind, (exec_fetchBotUserId upstream this u Hc).
  destruct (upstream AuthTest u) as [u1 answer].
  unfold then_exec. cbn [outcome this_after upstream_after calls exec].
  destruct (obtained_id answer) as [uid|] eqn:Huid.
  - cbn [slackBotUserId slackClient].
    destruct (obtained_id_truthy _ Huid) as [Hs _]. rewrite Hs.
    rewrite exec_try_catch_ret. reflexivity.
  - rewrite (truthy_false _ Hid). reflexivity.
Qed.
End Methods.

(** C5, as the code has it.  In the class-based server an operation name
    the switch does not know fails the request with [MethodNotFound]
    before any call; a known name either reaches its handler method or
    fails the dispatcher's own key check with [InvalidRequest].  No
    handler method ever throws: run on a server that has its client, the
    method of every operation returns what its [try] returns, and a
    failure [e] inside the [try] comes back, after the same calls, as the
    result with [isError] whose text is the label of the method followed
    by the message of [e].  The mention method, when it still has to fetch
    the bot user id, answers "Slack Bot User ID not available." with
    [isError] if the fetch yields none, and otherwise treats its [try] in
    the same way.  In the function-based server the whole switch is inside
    the [try]: every request is answered with a result, a failure [e] of
    the switch as the error object of [e], and an unknown operation name
    is such a failure, not a fault of the request. *)
Theorem dispatch_failure_handling :
  forall (U : Type) (upstream : forall q : Req, U -> U * FetchResult (Resp q))
         (request : CallToolRequest) this (u : U),
    (tool_of_name (name request) = None ->
     exec upstream (SlackMcpServer.CallToolRequestHandler request) this u
     = mkExecution u this []
         (Thrown (McpError MethodNotFound ("Unknown tool: " ++ name request)))) /\
    (forall t, tool_of_name (name request) = Some t ->
       SlackMcpServer.CallToolRequestHandler request
       = SlackMcpServer.method_of t (arguments request) \/
       exists msg, SlackMcpServer.CallToolRequestHandler request
                   = Throw (McpError InvalidRequest msg)) /\
    (forall t args, exists result,
       outcome (exec upstream (SlackMcpServer.method_of t args) this u) = Returned result) /\
    (forall label body client e,
       slackClient this = Some client ->
       outcome (exec upstream (body client) this u) = Thrown e ->
       outcome (exec upstream (SlackMcpServer.guarded label body) this u)
       = Returned {| content := Literal (label ++ message e); isError := true |}) /\
    (forall t args client uid,
       slackClient this = Some client ->
       (t = get_mentions_on_slack -> as_truthy (slackBotUserId this) = Some uid) ->
       let body := exec upstream (SlackMcpServer.try_of t client uid args) this u in
       exec upstream (SlackMcpServer.method_of t args) this u
       = mkExecution (upstream_after body) (this_after body) (calls body)
           match outcome body with
           | Returned result => Returned result
           | Thrown e =>
               Returned {| content := Literal (SlackMcpServer.error_label t ++ message e);
                           isError := true |}
           end) /\
    (forall args client u1 answer,
       slackClient this = Some client ->
       truthy (slackBotUserId this) = false ->
       upstream AuthTest u = (u1, answer) ->
       (obtained_id answer = None ->
        exec upstream (SlackMcpServer.method_of get_mentions_on_slack args) this u
        = mkExecution u1 this [AuthTest]
            (Returned {| content := Literal "Slack Bot User ID not available.";
                         isError := true |})) /\
       (forall uid,
           obtained_id answer = Some uid ->
           let body := exec upstream
                         (SlackMcpServer.try_of get_mentions_on_slack client uid args)
                         {| slackClient := Some client; slackBotUserId := Some uid |} u1 in
           exec upstream (SlackMcpServer.method_of get_mentions_on_slack args) this u
           = mkExecution (upstream_after body) (this_after body) (AuthTest :: calls body)
               match outcome body with
               | Returned result => Returned result
               | Thrown e =>
                   Returned {| content := Literal ("Error getting mentions: " ++ message e);
                               isError := true |}
               end)) /\
    (forall slackClient,
       outcome (exec upstream (Standalone.CallToolRequestHandler slackClient request) this u)
       = match outcome (exec upstream (Standalone.try_block slackClient request) this u) with
         | Returned result => Returned result
         | Thrown e => Returned {| content := JSON_stringify_error (message e);
                                   isError := false |}
         end) /\
    (forall slackClient args,
       tool_of_name (name request) = None -> arguments request = Some args ->
       exec upstream (Standalone.CallToolRequestHandler slackClient request) this u
       = mkExecution u this []
           (Returned {| content := JSON_stringify_error ("Unknown tool: " ++ name request);
                        isError := false |})).
Proof.
  intros U upstream request this u. repeat apply conj.
  - intros Hname. unfold SlackMcpServer.CallToolRequestHandler. now rewrite Hname.
  - intros t Hname. unfold SlackMcpServer.CallToolRequestHandler. rewrite Hname.
    destruct t; simpl; try (left; reflexivity).
    + destruct (SlackMcpServer.has_key Args.thread_ts (arguments request)
                && SlackMcpServer.has_key Args.text (arguments request));
        [left; reflexivity | right; eexists; reflexivity].
    + destruct (SlackMcpServer.has_key Args.thread_ts (arguments request));
        [left; reflexivity | right; eexists; reflexivity].
    + destruct (SlackMcpServer.has_key Args.user_id (arguments request));
        [left; reflexivity | right; eexists; reflexivity].
  - intros t args. apply never_throws_returns, never_throws_method_of.
  - intros label body client e Hc He.
    rewrite (exec_guarded upstream label body this u Hc). simpl. now rewrite He.
  - intros t args client uid Hc Hid body. subst body.
    now apply exec_method_of.
  - intros args client u1 answer Hc Hid Hup. cbn [SlackMcpServer.method_of].
    rewrite (@exec_handleGetMentions_without_id U upstream args client this u Hc Hid), Hup.
    split.
    + intros Hnone. now rewrite Hnone.
    + intros uid Huid. cbv zeta. now rewrite Huid.
  - intros slackClient. unfold Standalone.CallToolRequestHandler.
    rewrite exec_try_catch_ret. reflexivity.
  - intros slackClient args Hname Hargs. unfold Standalone.CallToolRequestHandler.
    rewrite exec_try_catch_ret. unfold Standalone.try_block, Standalone.switch.
    now rewrite Hargs, Hname.
Qed.

Lemma dispatch_failure_handling_witness :
  exec (Fixture.upstream [])
    (SlackMcpServer.CallToolRequestHandler
       {| name := "delete_channel"; arguments := Some Args.empty |})
    Fixture.started tt
  = mkExecution tt Fixture.started []
      (Thrown (McpError MethodNotFound "Unknown tool: delete_channel")) /\
  exec (Fixture.upstream [])
    (Standalone.CallToolRequestHandler Fixture.client
       {| name := "delete_channel"; arguments := Some Args.empty |})
    Fixture.no_this tt
  = mkExecution tt Fixture.no_this []
      (Returned {| content := JSON_stringify_error "Unknown tool: delete_channel";
                   isError := false |}) /\
  exec Outage.upstream
    (SlackMcpServer.method_of get_mentions_on_slack
       (Some (Args.make (Some "C1") None None None None None None)))
    Fixture.started tt
  = mkExecution tt Fixture.started [ConversationsHistory "C1" 10]
      (Returned {| content := Literal "Error getting mentions: fetch failed";
                   isError := true |}) /\
  exec Outage.upstream
    (SlackMcpServer.method_of get_channel_messages_on_slack
       (Some (Args.make (Some "C1") None None None None None None)))
    Fixture.started tt
  = mkExecution tt Fixture.started [ConversationsHistory "C1" 5]
      (Returned {| content := Literal "Error getting channel messages: fetch failed";
                   isError := true |}).
Proof.
  destruct (@dispatch_failure_handling unit (Fixture.upstream [])
              {| name := "delete_channel"; arguments := Some Args.empty |}
              Fixture.started tt) as (H1 & _).
  destruct (@dispatch_failure_handling unit (Fixture.upstream [])
              {| name := "delete_channel"; arguments := Some Args.empty |}
              Fixture.no_this tt) as (_ & _ & _ & _ & _ & _ & _ & H8).
  destruct (@dispatch_failure_handling unit Outage.upstream
              {| name := "get_mentions_on_slack"; arguments := None |}
              Fixture.started tt) as (_ & _ & _ & _ & H5 & _).
  split; [|split; [|split]].
  - apply H1. reflexivity.
  - apply (H8 Fixture.client Args.empty); reflexivity.
  - apply (H5 get_mentions_on_slack
             (Some (Args.make (Some "C1") None None None None None None))
             Fixture.client "U123" eq_refl (fun _ => eq_refl)).
  - apply (H5 get_channel_messages_on_slack
             (Some (Args.make (Some "C1") None None None None None None))
             Fixture.client "U123" eq_refl).
    discriminate.
Defined.

(** C5 as stated fails on the function-based server: an operation name
    the switch does not know is answered with a result that carries the
    error object; the request does not fault. *)
Lemma unknown_operation_is_answered_by_standalone :
  tool_of_name "delete_channel" = None /\
  exec (Fixture.upstream [])
    (Standalone.CallToolRequestHandler Fixture.client
       {| name := "delete_channel"; arguments := Some Args.empty |})
    Fixture.no_this tt
  = mkExecution tt Fixture.no_this []
      (Returned {| content := JSON_stringify_error "Unknown tool: delete_channel";
                   isError := false |}).
Proof. split; reflexivity. Qed.

(** ** Argument checks of the function-based server *)

(** Case analysis on the truthiness tests, the upstream answer and the
    page lookup that a case of the switch goes through. *)
Ltac split_case upstream :=
  repeat first
    [ progress cbn -[Z.min as_truthy]
    | match goal with
      | |- context [as_truthy ?v] => destruct (as_truthy v) eqn:?
      | |- context [upstream ?q ?u] => destruct (upstream q u) as [? [?|?]] eqn:?
      | |- context [ChannelsResponse.ok ?r] => destruct (ChannelsResponse.ok r) eqn:?
      | |- context [find ?f ?l] => destruct (find f l) eqn:?
      end ].

(** C6, as the code has it.  When an argument that the switch of the
    function-based server checks for the tool is missing, the request is
    answered with the error object and nothing is posted or fetched for
    it, with one exception: [send_message_on_slack] and
    [get_thread_replies_on_slack], given a channel name without an
    identifier, first resolve the name, so the one list call of the
    resolution precedes the check of [text] or [thread_ts].  The check of
    [reply_to_thread_on_slack] comes before any call. *)
Theorem missing_argument_is_reported :
  forall (U : Type) (upstream : forall q : Req, U -> U * FetchResult (Resp q))
         slackClient (request : CallToolRequest) (t : Tool) (args : Args.t) this (u : U),
    tool_of_name (name request) = Some t ->
    arguments request = Some args ->
    Standalone.missing_required t args = true ->
    let r := exec upstream (Standalone.CallToolRequestHandler slackClient request) this u in
    (exists error, outcome r = Returned {| content := JSON_stringify_error error;
                                           isError := false |}) /\
    calls r = (if Standalone.resolves_name_first t args
               then [ConversationsList 200 None] else []) /\
    (t = reply_to_thread_on_slack -> calls r = []).
Proof.
  intros U upstream slackClient request t args this u Htool Hargs Hmissing r. subst r.
  unfold Standalone.CallToolRequestHandler. rewrite exec_try_catch_ret.
  unfold Standalone.try_block, Standalone.switch. rewrite Hargs, Htool.
  revert Hmissing.
  unfold Standalone.missing_required, Standalone.resolves_name_first,
    Standalone.resolve_in_case, getChannelMessages, resolveChannelId, truthy.
  rewrite ?getChannels_200.
  destruct t; try discriminate; split_case upstream; intros Hmissing;
    try discriminate Hmissing; try congruence;
    (split; [eexists; reflexivity | split; [reflexivity | try discriminate; reflexivity]]).
Qed.

Lemma missing_argument_is_reported_witness :
  exec (Fixture.upstream [])
    (Standalone.CallToolRequestHandler Fixture.client
       {| name := "reply_to_thread_on_slack";
          arguments := Some (Args.make (Some "C1") None (Some "on it") None None None None) |})
    Fixture.no_this tt
  = mkExecution tt Fixture.no_this []
      (Returned {| content := JSON_stringify_error
                                "Missing required arguments: channel_id, thread_ts, and text";
                   isError := false |}) /\
  calls (exec (Fixture.upstream [])
           (Standalone.CallToolRequestHandler Fixture.client
              {| name := "reply_to_thread_on_slack";
                 arguments :=
                   Some (Args.make (Some "C1") None (Some "on it") None None None None) |})
           Fixture.no_this tt) = [].
Proof.
  split; [reflexivity|].
  apply (@missing_argument_is_reported unit (Fixture.upstream []) Fixture.client
           {| name := "reply_to_thread_on_slack";
              arguments := Some (Args.make (Some "C1") None (Some "on it") None None None None) |}
           reply_to_thread_on_slack
           (Args.make (Some "C1") None (Some "on it") None None None None)
           Fixture.no_this tt eq_refl eq_refl eq_refl).
  reflexivity.
Defined.

(** C6 as stated fails: [send_message_on_slack] with a channel name and
    no text lists the channels before it reports the missing text. *)
Lemma missing_text_is_reported_after_list_call :
  Standalone.missing_required send_message_on_slack
    (Args.make None (Some "general") None None None None None) = true /\
  exec (Fixture.upstream [])
    (Standalone.CallToolRequestHandler Fixture.client
       {| name := "send_message_on_slack";
          arguments := Some (Args.make None (Some "general") None None None None None) |})
    Fixture.no_this tt
  = mkExecution tt Fixture.no_this [ConversationsList 200 None]
      (Returned {| content := JSON_stringify_error "Missing required argument: text";
                   isError := false |}).
Proof. split; reflexivity. Qed.

(** ** The cached bot user id *)

Ltac keeps_step :=
  match goal with
  | |- forall _, _ => intro
  | |- keeps _ _ (Ret _) => exact I
  | |- keeps _ _ (Throw _) => exact I
  | |- keeps _ _ (bind _ _) => apply keeps_bind
  | |- keeps _ _ (try_catch _ _) => apply keeps_try_catch
  | |- keeps _ _ (await _) => apply keeps_await
  | |- keeps _ _ (getMentions _ _ _) => apply keeps_getMentions
  | |- keeps _ _ (getChannelMessages _ _) => apply keeps_getChannelMessages
  | |- keeps _ _ (resolveChannelId _ _ _) => apply keeps_resolveChannelId
  | |- keeps _ _ (match ?x with _ => _ end) => destruct x
  | |- not_identity_fetch _ => reflexivity
  | |- keeps _ _ _ =>
      progress (unfold SlackMcpServer.property_of, SlackMcpServer.resolve_in_method,
                getChannels, postMessage, postReply, getChannelHistory, getThreadReplies,
                getUsers, getUserProfile)
  end.

Lemma keeps_guarded (P : Req -> Prop) s label (body : SlackClient -> Prog CallToolResult) :
  (forall client, keeps P s (body client)) -> keeps P s (SlackMcpServer.guarded label body).
Proof.
  intros H. unfold SlackMcpServer.guarded. simpl.
  destruct (slackClient s); [|exact I].
  apply keeps_try_catch; [apply H | intros; exact I].
Qed.

Lemma keeps_handler_once_fetched (request : CallToolRequest) (s : ServerState) :
  truthy (slackBotUserId s) = true ->
  keeps not_identity_fetch s (SlackMcpServer.CallToolRequestHandler request).
Proof.
  intros Hid. unfold SlackMcpServer.CallToolRequestHandler.
  destruct (tool_of_name (name request)) as [t|]; [|exact I].
  destruct t;
    try match goal with
      | |- keeps _ _ (if ?x then _ else _) => destruct x; [|exact I]
      end;
    try (apply keeps_guarded; repeat keeps_step).
  unfold SlackMcpServer.handleGetMentions. simpl.
  destruct (slackClient s); [|exact I].
  rewrite Hid. simpl.
  destruct (as_truthy (slackBotUserId s)); [|exact I].
  repeat keeps_step.
Qed.

Section Cache.
Context {U : Type}.
Variable upstream : forall q : Req, U -> U * FetchResult (Resp q).

Lemma serve_keeps_once_fetched (requests : list CallToolRequest) (s : ServerState) (u : U) :
  truthy (slackBotUserId s) = true ->
  let r := serve upstream SlackMcpServer.CallToolRequestHandler requests s u in
  this_after r = s /\ Forall not_identity_fetch (calls r).
Proof.
  intros Hid. revert u. induction requests as [|request rest IH]; intros u; simpl.
  - now split.
  - destruct (@keeps_exec U upstream not_identity_fetch _ _ s u
                (keeps_handler_once_fetched request s Hid)) as [Hs Hc].
    rewrite Hs. destruct (IH (upstream_after
      (exec upstream (SlackMcpServer.CallToolRequestHandler request) s u))) as [Hs' Hc'].
    split; [exact Hs' | now apply Forall_app].
Qed.

Lemma serve_app (handler : CallToolRequest -> Prog CallToolResult)
  (before after : list CallToolRequest) (s : ServerState) (u : U) :
  let r1 := serve upstream handler before s u in
  let r2 := serve upstream handler after (this_after r1) (upstream_after r1) in
  serve upstream handler (before ++ after) s u
  = mkExecution (upstream_after r2) (this_after r2) (calls r1 ++ calls r2)
      (Returned (responses r1 ++ responses r2)%list).
Proof.
  revert s u. induction before as [|request rest IH]; intros s u; simpl.
  - now destruct after.
  - rewrite IH. simpl. now rewrite app_assoc.
Qed.
End Cache.

(** C9. Once the bot user id has been obtained (the field holds a truthy
    value), serving any sequence of requests, mention requests included,
    issues no [auth.test] call and leaves the server object, the cached
    id with it, as it was.  Over a process: from the point of a run at
    which the id is held, whatever requests follow add no identity fetch
    to the calls of the process and do not change the cached id. *)
Theorem bot_user_id_is_kept_once_fetched :
  forall (U : Type) (upstream : forall q : Req, U -> U * FetchResult (Resp q)),
    (forall (requests : list CallToolRequest) (this : ServerState) (u : U),
        truthy (slackBotUserId this) = true ->
        let r := serve upstream SlackMcpServer.CallToolRequestHandler requests this u in
        this_after r = this /\ Forall not_identity_fetch (calls r)) /\
    (forall (SLACK_BOT_TOKEN : option string) (before after : list CallToolRequest) (u : U),
        let p := process upstream SLACK_BOT_TOKEN before u in
        truthy (slackBotUserId (this_after p)) = true ->
        let p' := process upstream SLACK_BOT_TOKEN (before ++ after) u in
        this_after p' = this_after p /\
        exists later, calls p' = (calls p ++ later)%list /\
                      Forall not_identity_fetch later).
Proof.
  intros U upstream. split.
  - intros requests this u Hid. now apply serve_keeps_once_fetched.
  - intros token before after u. unfold process.
    destruct (outcome (exec upstream (SlackMcpServer.run token)
                         SlackMcpServer.constructed u)) as [[|]|e]; simpl.
    + intros Hid. rewrite serve_app. simpl.
      destruct (serve_keeps_once_fetched upstream after _
                  (upstream_after (serve upstream SlackMcpServer.CallToolRequestHandler before
                     (this_after (exec upstream (SlackMcpServer.run token)
                                    SlackMcpServer.constructed u))
                     (upstream_after (exec upstream (SlackMcpServer.run token)
                                        SlackMcpServer.constructed u)))) Hid) as [Hs Hc].
      split; [exact Hs|]. eexists. split; [apply app_assoc | exact Hc].
    + intros _. split; [reflexivity|]. exists []. split; [now rewrite app_nil_r | constructor].
    + intros _. split; [reflexivity|]. exists []. split; [now rewrite app_nil_r | constructor].
Qed.

Lemma bot_user_id_is_kept_once_fetched_witness :
  calls (process (Fixture.upstream []) (Some "xoxb-fixture") [] tt) = [AuthTest] /\
  calls (process (Fixture.upstream []) (Some "xoxb-fixture")
           [Fixture.mentions_in_general; Fixture.mentions_in_general] tt)
  = [AuthTest; ConversationsHistory "C1" 10; ConversationsHistory "C1" 10] /\
  this_after (serve (Fixture.upstream []) SlackMcpServer.CallToolRequestHandler
                [Fixture.mentions_in_general; Fixture.mentions_in_general]
                Fixture.started tt) = Fixture.started.
Proof.
  split; [reflexivity|]. split; [reflexivity|].
  apply (proj1 (@bot_user_id_is_kept_once_fetched unit (Fixture.upstream []))
           [Fixture.mentions_in_general; Fixture.mentions_in_general] Fixture.started tt).
  reflexivity.
Defined.

(** * Further properties of the code *)

(** ** Sequencing *)

Section BindFacts.
Context {U : Type}.
Variable upstream : forall q : Req, U -> U * FetchResult (Resp q).

Lemma exec_bind_thrown (A B : Type) (m : Prog A) (f : A -> Prog B) this u e :
  outcome (exec upstream m this u) = Thrown e ->
  exec upstream (bind m f) this u
  = mkExecution (upstream_after (exec upstream m this u))
      (this_after (exec upstream m this u)) (calls (exec upstream m this u)) (Thrown e).
Proof. intros H. rewrite exec_bind. unfold then_exec. now rewrite H. Qed.

Lemma exec_bind_returned (A B : Type) (m : Prog A) (f : A -> Prog B) this u b :
  outcome (exec upstream (bind m f) this u) = Returned b ->
  exists a this' u', outcome (exec upstream (f a) this' u') = Returned b.
Proof.
  rewrite exec_bind. unfold then_exec.
  destruct (outcome (exec upstream m this u)) as [a|e]; simpl; [|discriminate].
  intros H. now exists a, (this_after (exec upstream m this u)),
                       (upstream_after (exec upstream m this u)).
Qed.

Lemma exec_await (q : Req) this u :
  exec upstream (await q) this u
  = let (u', r) := upstream q u in
    mkExecution u' this [q]
      match r with
      | Resolved v => Returned v
      | Rejected e => Thrown e
      end.
Proof. simpl. now destruct (upstream q u) as [u' [v|e]]. Qed.
End BindFacts.

Lemma slice0_incl (A : Type) (xs : list A) (e : Z) (x : A) : In x (slice0 xs e) -> In x xs.
Proof.
  unfold slice0. intros H.
  rewrite <- (firstn_skipn (Z.to_nat (if e <? 0
                                      then Z.max (Z.of_nat (length xs) + e) 0
                                      else Z.min e (Z.of_nat (length xs)))) xs).
  apply in_or_app. now left.
Qed.

Lemma slice0_nil (A : Type) (e : Z) : slice0 (@nil A) e = [].
Proof. unfold slice0. apply firstn_nil. Qed.

Lemma slice0_length (A : Type) (xs : list A) (e : Z) :
  0 <= e -> (length (slice0 xs e) <= Z.to_nat e)%nat.
Proof. intros He. rewrite slice0_firstn by assumption. apply firstn_le_length. Qed.

Lemma slice0_negative (A : Type) (xs : list A) (k : nat) :
  (0 < k)%nat -> slice0 xs (- Z.of_nat k) = firstn (length xs - k) xs.
Proof.
  intros Hk. unfold slice0. destruct (Z.ltb_spec (- Z.of_nat k) 0); [|lia].
  f_equal. lia.
Qed.

(** ** The resolver: what it returns and how it fails *)

(** X1. Whatever identifier the resolver returns is either the truthy
    identifier it was given, or the identifier of a channel that the one
    listed page contains and whose name or normalized name is the
    requested name. *)
Theorem resolveChannelId_returns_given_or_listed :
  forall (U : Type) (upstream : forall q : Req, U -> U * FetchResult (Resp q))
         slackClient (channel_id channel_name : option string) this (u : U) (id : string),
    outcome (exec upstream (resolveChannelId slackClient channel_id channel_name) this u)
    = Returned id ->
    as_truthy channel_id = Some id \/
    (as_truthy channel_id = None /\
     exists n u' page ch,
       as_truthy channel_name = Some n /\
       upstream (ConversationsList 200 None) u
       = (u', Resolved (ChannelsResponse.make true page)) /\
       In ch page /\
       (Channel.name ch = n \/ Channel.name_normalized ch = n) /\
       id = Channel.id ch).
Proof.
  intros U upstream slackClient channel_id channel_name this u id.
  unfold resolveChannelId. destruct (as_truthy channel_id) as [cid|] eqn:Hid.
  - simpl. intros H. injection H as ->. now left.
  - destruct (as_truthy channel_name) as [n|] eqn:Hn; [|discriminate].
    rewrite getChannels_200. simpl.
    destruct (upstream (ConversationsList 200 None) u) as [u' [[ok page]|e]] eqn:Hup; simpl;
      [|discriminate].
    destruct ok; simpl; [|discriminate].
    destruct (find (name_matches n) page) as [ch|] eqn:Hfind; simpl; [|discriminate].
    intros H. injection H as <-. right. split; [reflexivity|].
    apply find_some in Hfind. destruct Hfind as [Hin Hm].
    exists n, u', page, ch. repeat split; try assumption.
    now apply name_matches_iff.
Qed.

Lemma resolveChannelId_returns_given_or_listed_witness :
  exists ch, In ch [Fixture.general; Fixture.random] /\ "C2" = Channel.id ch.
Proof.
  destruct (@resolveChannelId_returns_given_or_listed unit (Fixture.upstream [])
              Fixture.client None (Some "random") Fixture.no_this tt "C2" eq_refl)
    as [H | (_ & n & u' & page & ch & _ & Hup & Hin & _ & Hid)].
  - discriminate H.
  - injection Hup as _ <-. now exists ch.
Defined.

(** X2. How the resolver fails.  With neither a truthy identifier nor a
    truthy name (an empty string counts as absent) it throws the
    missing-argument error without any call.  With a name only, a list
    call that is rejected throws the rejection and one that is answered
    with [ok: false] throws "Failed to fetch channels list", whatever
    channels that answer carries.  In every case the resolver leaves the
    server object alone and issues at most one call, the list call. *)
Theorem resolveChannelId_failure_modes :
  forall (U : Type) (upstream : forall q : Req, U -> U * FetchResult (Resp q))
         slackClient (channel_id channel_name : option string) this (u : U),
    let r := exec upstream (resolveChannelId slackClient channel_id channel_name) this u in
    (truthy channel_id = false -> truthy channel_name = false ->
     r = mkExecution u this [] (Thrown (Error "Missing channel_id or channel_name"))) /\
    (truthy channel_id = false -> truthy channel_name = true ->
     (forall u' e,
         upstream (ConversationsList 200 None) u = (u', Rejected e) ->
         outcome r = Thrown e) /\
     (forall u' page,
         upstream (ConversationsList 200 None) u
         = (u', Resolved (ChannelsResponse.make false page)) ->
         outcome r = Thrown (Error "Failed to fetch channels list"))) /\
    this_after r = this /\
    (calls r = [] \/ calls r = [ConversationsList 200 None]).
Proof.
  intros U upstream slackClient channel_id channel_name this u r. subst r.
  unfold resolveChannelId, truthy.
  destruct (as_truthy channel_id) as [cid|].
  - simpl. repeat split; try discriminate. now left.
  - destruct (as_truthy channel_name) as [n|].
    + rewrite getChannels_200. simpl.
      destruct (upstream (ConversationsList 200 None) u) as [u1 [[ok page]|e]]; simpl.
      * destruct ok; simpl.
        -- destruct (find (name_matches n) page); simpl;
             (split; [discriminate|]); (split; [|split; [reflexivity | now right]]);
             intros _ _; (split; [intros u' e H; discriminate H
                                 | intros u' p H; discriminate H]).
        -- split; [discriminate|]. split; [|split; [reflexivity | now right]].
           intros _ _. split; [intros u' e H; discriminate H | reflexivity].
      * split; [discriminate|]. split; [|split; [reflexivity | now right]].
        intros _ _. split; [|intros u' p H; discriminate H].
        intros u' e0 H. now injection H as _ ->.
    + simpl. repeat split; try discriminate. now left.
Qed.

Lemma resolveChannelId_failure_modes_witness :
  exec (Fixture.upstream []) (resolveChannelId Fixture.client (Some "") (Some ""))
    Fixture.no_this tt
  = mkExecution tt Fixture.no_this [] (Thrown (Error "Missing channel_id or channel_name")).
Proof.
  apply (@resolveChannelId_failure_modes unit (Fixture.upstream []) Fixture.client
           (Some "") (Some "") Fixture.no_this tt); reflexivity.
Defined.

(** ** Page sizes of the listing tools *)

(** X3. The client asks for at most 200 channels or users per call: the
    page size it sends is the smaller of the limit and 200, and 100 when
    no limit is given; a limit of 0 is sent as 0 (only an absent limit is
    replaced).  The cursor is sent only when it is truthy.  Each listing
    is a single call whose answer is returned as it is and whose
    rejection is thrown. *)
Theorem listing_page_size :
  forall (U : Type) (upstream : forall q : Req, U -> U * FetchResult (Resp q))
         slackClient (limit : option Z) (cursor : option string) this (u : U),
    let size := Z.min (default_param limit 100) 200 in
    size <= 200 /\
    (limit = None -> size = 100) /\
    (limit = Some 0 -> size = 0) /\
    exec upstream (getChannels slackClient limit cursor) this u
    = (let (u', r) := upstream (ConversationsList size (as_truthy cursor)) u in
       mkExecution u' this [ConversationsList size (as_truthy cursor)]
         match r with
         | Resolved v => Returned v
         | Rejected e => Thrown e
         end) /\
    exec upstream (getUsers slackClient limit cursor) this u
    = (let (u', r) := upstream (UsersList size (as_truthy cursor)) u in
       mkExecution u' this [UsersList size (as_truthy cursor)]
         match r with
         | Resolved v => Returned v
         | Rejected e => Thrown e
         end).
Proof.
  intros U upstream slackClient limit cursor this u size. subst size.
  split; [apply Z.le_min_r|]. split; [now intros ->|]. split; [now intros ->|].
  unfold getChannels, getUsers. split.
  - apply (exec_await upstream
             (ConversationsList (Z.min (default_param limit 100) 200) (as_truthy cursor))).
  - apply (exec_await upstream
             (UsersList (Z.min (default_param limit 100) 200) (as_truthy cursor))).
Qed.

(** ** [getChannelMessages] *)

(** X4. [getChannelMessages] forwards the history answer of the resolved
    channel as it is, an answer with [ok: false] included: given a truthy
    identifier it issues the one history request, for [args.limit || 5]
    messages, and returns the answer or throws the rejection.  When the
    resolution fails, it fails with the resolver's error and the
    resolver's calls, so no history is requested. *)
Theorem getChannelMessages_forwards_history :
  forall (U : Type) (upstream : forall q : Req, U -> U * FetchResult (Resp q))
         slackClient (args : Args.t) this (u : U),
    (forall channel_id,
        as_truthy (Args.channel_id args) = Some channel_id ->
        exec upstream (getChannelMessages slackClient args) this u
        = let q := ConversationsHistory channel_id (or_default (Args.limit args) 5) in
          let (u', r) := upstream q u in
          mkExecution u' this [q]
            match r with
            | Resolved data => Returned data
            | Rejected e => Thrown e
            end) /\
    (forall e,
        let resolution :=
          exec upstream
            (resolveChannelId slackClient (Args.channel_id args) (Args.channel_name args))
            this u in
        outcome resolution = Thrown e ->
        outcome (exec upstream (getChannelMessages slackClient args) this u) = Thrown e /\
        calls (exec upstream (getChannelMessages slackClient args) this u)
        = calls resolution).
Proof.
  intros U upstream slackClient args this u. split.
  - intros channel_id Hid. unfold getChannelMessages, resolveChannelId. rewrite Hid.
    cbn [bind].
    apply (exec_await upstream
             (ConversationsHistory channel_id (or_default (Args.limit args) 5))).
  - intros e resolution H. subst resolution. unfold getChannelMessages.
    rewrite (exec_bind_thrown upstream _ _ _ _ H). now split.
Qed.

Lemma getChannelMessages_forwards_history_witness :
  exec (Fixture.upstream ["C1"])
    (getChannelMessages Fixture.client (Args.make (Some "C1") None None None None None None))
    Fixture.no_this tt
  = mkExecution tt Fixture.no_this [ConversationsHistory "C1" 5]
      (Returned (HistoryResponse.make false [])).
Proof.
  apply (proj1 (@getChannelMessages_forwards_history unit (Fixture.upstream ["C1"])
                  Fixture.client (Args.make (Some "C1") None None None None None None)
                  Fixture.no_this tt) "C1").
  reflexivity.
Defined.

(** ** What a mention scan returns *)

(** X5. Whatever a mention scan returns, with or without channel scope,
    is marked [ok: true], holds only messages whose text carries the
    identity marker, and, for a limit that is not negative, holds at most
    [args.limit || 10] of them. *)
Theorem getMentions_result_invariant :
  forall (U : Type) (upstream : forall q : Req, U -> U * FetchResult (Resp q))
         slackClient (args : Args.t) (userId : string) this (u : U)
         (result : HistoryResponse.t),
    outcome (exec upstream (getMentions slackClient args userId) this u) = Returned result ->
    HistoryResponse.ok result = true /\
    (forall msg, In msg (HistoryResponse.messages result) ->
                 exists text pre post,
                   Message.text msg = Some text /\
                   text = pre ++ "<@" ++ userId ++ ">" ++ post) /\
    (0 <= or_default (Args.limit args) 10 ->
     (length (HistoryResponse.messages result)
      <= Z.to_nat (or_default (Args.limit args) 10))%nat).
Proof.
  intros U upstream slackClient args userId this u result H.
  unfold getMentions in H.
  apply exec_bind_returned in H. destruct H as (channelId & this1 & u1 & H).
  apply exec_bind_returned in H. destruct H as (messages & this2 & u2 & H).
  simpl in H. injection H as <-. simpl. split; [reflexivity|]. split.
  - intros msg Hin. apply slice0_incl, filter_In in Hin. destruct Hin as [_ Hm].
    unfold is_mentioned, mentionTag in Hm.
    destruct (Message.text msg) as [text|] eqn:Ht; [|discriminate].
    unfold as_truthy in Hm. destruct (text =? "")%string; [discriminate|].
    apply includes_iff in Hm. destruct Hm as (pre & post & Hm).
    exists text, pre, post. split; [reflexivity|]. now rewrite !append_assoc in Hm.
  - intros Hlimit. now apply slice0_length.
Qed.

Lemma getMentions_result_invariant_witness :
  (length [Fixture.g1; Fixture.g2; Fixture.g3; Fixture.r1] <= Z.to_nat 4)%nat.
Proof.
  apply (@getMentions_result_invariant unit (Fixture.upstream []) Fixture.client
           (Args.with_limit (Some 4) Args.empty) "U123" Fixture.no_this tt
           (HistoryResponse.make true [Fixture.g1; Fixture.g2; Fixture.g3; Fixture.r1])
           eq_refl).
  vm_compute. discriminate.
Defined.

Section ScanFacts.
Context {U : Type}.
Variable upstream : forall q : Req, U -> U * FetchResult (Resp q).

Lemma exec_getMentions_by_id slackClient args userId (channel_id : string) this u :
  as_truthy (Args.channel_id args) = Some channel_id ->
  exec upstream (getMentions slackClient args userId) this u
  = let limit := or_default (Args.limit args) 10 in
    let (u', r) := upstream (ConversationsHistory channel_id limit) u in
    mkExecution u' this [ConversationsHistory channel_id limit]
      match r with
      | Resolved data =>
          Returned (HistoryResponse.make true
                      (slice0 (filter (is_mentioned userId)
                                 (if HistoryResponse.ok data
                                  then HistoryResponse.messages data else [])) limit))
      | Rejected e => Thrown e
      end.
Proof.
  intros Hid. unfold getMentions. rewrite Hid. cbn [bind].
  assert (Hne : as_truthy (Some channel_id) = Some channel_id).
  { unfold as_truthy in *. destruct (Args.channel_id args) as [s|]; [|discriminate].
    destruct (String.eqb_spec s ""); [discriminate|]. injection Hid as <-.
    destruct (String.eqb_spec s ""); [contradiction | reflexivity]. }
  rewrite Hne. simpl.
  now destruct (upstream (ConversationsHistory channel_id (or_default (Args.limit args) 10)) u)
    as [u1 [data|e]].
Qed.

Lemma calls_for_each_channel_rejected limit page acc this u pre e post :
  history_pages upstream limit page u = (pre ++ Rejected e :: post)%list ->
  Forall (@is_resolved _) pre ->
  calls (exec upstream (for_each_channel limit page acc) this u)
  = map (history_request limit) (firstn (S (length pre)) page).
Proof.
  revert acc u pre. induction page as [|ch page IH]; intros acc u pre Hpages Hpre.
  - simpl in Hpages. destruct pre; discriminate.
  - simpl in Hpages. simpl.
    destruct (upstream (ConversationsHistory (Channel.id ch) limit) u) as [u' [data|e']].
    + destruct pre as [|p pre]; [discriminate|]. injection Hpages as _ Hpages.
      inversion Hpre; subst. simpl. f_equal. now apply IH.
    + destruct pre as [|p pre].
      * reflexivity.
      * injection Hpages as <- _. inversion Hpre; subst. contradiction.
Qed.
End ScanFacts.

(** X6. A scan of one channel given by identifier never reports an
    upstream failure of its history call: an answer with [ok: false] comes
    back as a successful scan with no messages.  An answer with [ok: true]
    comes back as its mentions, cut by [slice(0, limit)]; a rejected call
    is thrown. *)
Theorem scan_by_id_outcome :
  forall (U : Type) (upstream : forall q : Req, U -> U * FetchResult (Resp q))
         slackClient (args : Args.t) (userId channel_id : string) this (u u' : U)
         (answer : FetchResult HistoryResponse.t),
    as_truthy (Args.channel_id args) = Some channel_id ->
    let limit := or_default (Args.limit args) 10 in
    upstream (ConversationsHistory channel_id limit) u = (u', answer) ->
    let r := exec upstream (getMentions slackClient args userId) this u in
    (forall ms, answer = Resolved (HistoryResponse.make false ms) ->
                outcome r = Returned (HistoryResponse.make true [])) /\
    (forall ms, answer = Resolved (HistoryResponse.make true ms) ->
                outcome r = Returned (HistoryResponse.make true
                              (slice0 (filter (is_mentioned userId) ms) limit))) /\
    (forall e, answer = Rejected e -> outcome r = Thrown e).
Proof.
  intros U upstream slackClient args userId channel_id this u u' answer Hid limit Hup r.
  subst r limit.
  rewrite (exec_getMentions_by_id upstream slackClient args userId this u Hid).
  cbv zeta. rewrite Hup. repeat split.
  - intros ms ->. simpl. now rewrite slice0_nil.
  - now intros ms ->.
  - now intros e ->.
Qed.

Lemma scan_by_id_outcome_witness :
  outcome (exec (Fixture.upstream ["C1"])
             (getMentions Fixture.client
                (Args.make (Some "C1") None None None None None None) "U123")
             Fixture.no_this tt)
  = Returned (HistoryResponse.make true []).
Proof.
  apply (proj1 (@scan_by_id_outcome unit (Fixture.upstream ["C1"]) Fixture.client
                  (Args.make (Some "C1") None None None None None None) "U123" "C1"
                  Fixture.no_this tt tt (Resolved (HistoryResponse.make false []))
                  eq_refl eq_refl) []).
  reflexivity.
Defined.

(** X7. A negative limit is not rejected: in a scan of one channel, a
    limit of [-k] is sent upstream as it is and, applied to the mentions
    of the answer, [slice(0, -k)] drops the last [k] of them. *)
Theorem scan_negative_limit_drops_last :
  forall (U : Type) (upstream : forall q : Req, U -> U * FetchResult (Resp q))
         slackClient (args : Args.t) (userId channel_id : string) this (u u' : U)
         (k : nat) (ms : list Message.t),
    as_truthy (Args.channel_id args) = Some channel_id ->
    (0 < k)%nat ->
    Args.limit args = Some (- Z.of_nat k) ->
    upstream (ConversationsHistory channel_id (- Z.of_nat k)) u
    = (u', Resolved (HistoryResponse.make true ms)) ->
    let mentioned := filter (is_mentioned userId) ms in
    exec upstream (getMentions slackClient args userId) this u
    = mkExecution u' this [ConversationsHistory channel_id (- Z.of_nat k)]
        (Returned (HistoryResponse.make true (firstn (length mentioned - k) mentioned))).
Proof.
  intros U upstream slackClient args userId channel_id this u u' k ms Hid Hk Hlimit Hup
         mentioned.
  rewrite (exec_getMentions_by_id upstream slackClient args userId this u Hid).
  assert (E : or_default (Args.limit args) 10 = - Z.of_nat k).
  { rewrite Hlimit. simpl. destruct (Z.eqb_spec (- Z.of_nat k) 0); [lia | reflexivity]. }
  rewrite E. cbv zeta. rewrite Hup. simpl. fold mentioned.
  now rewrite slice0_negative.
Qed.

Lemma scan_negative_limit_drops_last_witness :
  exec Lenient.upstream
    (getMentions Fixture.client
       (Args.make (Some "C1") None None None None (Some (-1)) None) "U123")
    Fixture.no_this tt
  = mkExecution tt Fixture.no_this [ConversationsHistory "C1" (-1)]
      (Returned (HistoryResponse.make true [Fixture.g1; Fixture.g2])).
Proof.
  apply (@scan_negative_limit_drops_last unit Lenient.upstream Fixture.client
           (Args.make (Some "C1") None None None None (Some (-1)) None) "U123" "C1"
           Fixture.no_this tt tt 1%nat [Fixture.g1; Fixture.g2; Fixture.g3] eq_refl).
  - constructor.
  - reflexivity.
  - reflexivity.
Defined.

(** X8. A scan without channel scope stops at the first rejected history
    call: the channels after it on the page are not asked, and the scan
    throws that rejection; the messages collected so far are dropped. *)
Theorem unscoped_scan_stops_at_rejection :
  forall (U : Type) (upstream : forall q : Req, U -> U * FetchResult (Resp q))
         slackClient (args : Args.t) (userId : string) this (u u1 : U)
         (page : list Channel.t) pre e post,
    truthy (Args.channel_id args) = false ->
    truthy (Args.channel_name args) = false ->
    upstream (ConversationsList 200 None) u
    = (u1, Resolved (ChannelsResponse.make true page)) ->
    let limit := or_default (Args.limit args) 10 in
    history_pages upstream limit page u1 = (pre ++ Rejected e :: post)%list ->
    Forall (@is_resolved _) pre ->
    let r := exec upstream (getMentions slackClient args userId) this u in
    outcome r = Thrown e /\
    calls r = ConversationsList 200 None
              :: map (fun ch => ConversationsHistory (Channel.id ch) limit)
                   (firstn (S (length pre)) page).
Proof.
  intros U upstream slackClient args userId this u u1 page pre e post Hid Hname Hlist
         limit Hpages Hpre r.
  subst r. rewrite exec_getMentions_unscoped by assumption. rewrite Hlist. simpl.
  fold limit. split.
  - destruct (exec_for_each_channel upstream limit page [] this u1) as (Ho & _).
    rewrite Ho, Hpages. now rewrite collect_rejected.
  - f_equal. eapply calls_for_each_channel_rejected; eassumption.
Qed.

Lemma unscoped_scan_stops_at_rejection_witness :
  exec Outage.upstream (getMentions Fixture.client Args.empty "U123") Fixture.no_this tt
  = mkExecution tt Fixture.no_this
      [ConversationsList 200 None; ConversationsHistory "C1" 10]
      (Thrown (TypeError "fetch failed")) /\
  calls (exec Outage.upstream (getMentions Fixture.client Args.empty "U123")
           Fixture.no_this tt)
  = [ConversationsList 200 None; ConversationsHistory "C1" 10].
Proof.
  split; [reflexivity|].
  apply (@unscoped_scan_stops_at_rejection unit Outage.upstream Fixture.client Args.empty
           "U123" Fixture.no_this tt tt [Fixture.general; Fixture.random] []
           (TypeError "fetch failed")
           [Resolved (HistoryResponse.make true [Fixture.r1; Fixture.r2; Fixture.r3])]
           eq_refl eq_refl eq_refl eq_refl).
  constructor.
Defined.

Lemma resolveChannelId_calls (U : Type)
  (upstream : forall q : Req, U -> U * FetchResult (Resp q))
  slackClient (channel_id channel_name : option string) this (u : U) :
  calls (exec upstream (resolveChannelId slackClient channel_id channel_name) this u) = [] \/
  calls (exec upstream (resolveChannelId slackClient channel_id channel_name) this u)
  = [ConversationsList 200 None].
Proof.
  unfold resolveChannelId.
  destruct (as_truthy channel_id); [now left|].
  destruct (as_truthy channel_name); [|now left].
  rewrite getChannels_200. simpl.
  destruct (upstream (ConversationsList 200 None) u) as [u1 [[ok page]|e]]; simpl;
    [|now right].
  destruct ok; simpl; [|now right]. destruct (find _ page); now right.
Qed.

(** X9. When the scan is given a channel name that the resolver cannot
    resolve, it fails with the resolver's error after the resolver's
    calls: it requests no history and does not fall back to a scan of all
    channels. *)
Theorem scan_by_name_does_not_fall_back :
  forall (U : Type) (upstream : forall q : Req, U -> U * FetchResult (Resp q))
         slackClient (args : Args.t) (userId : string) this (u : U) (e : JsError),
    truthy (Args.channel_id args) = false ->
    truthy (Args.channel_name args) = true ->
    let resolution :=
      exec upstream (resolveChannelId slackClient None (Args.channel_name args)) this u in
    outcome resolution = Thrown e ->
    let r := exec upstream (getMentions slackClient args userId) this u in
    outcome r = Thrown e /\
    calls r = calls resolution /\
    calls r = [ConversationsList 200 None].
Proof.
  intros U upstream slackClient args userId this u e Hid Hname resolution He r.
  subst r resolution. unfold getMentions.
  rewrite (truthy_false _ Hid), Hname.
  assert (H1 : outcome (exec upstream
                 (id <- resolveChannelId slackClient None (Args.channel_name args) ;;
                  Ret (Some id)) this u) = Thrown e).
  { now rewrite (exec_bind_thrown upstream _ _ _ _ He). }
  rewrite (exec_bind_thrown upstream _ _ _ _ H1). simpl.
  rewrite (exec_bind_thrown upstream _ _ _ _ He). simpl.
  split; [reflexivity|]. split; [reflexivity|].
  destruct (@resolveChannelId_calls U upstream slackClient None (Args.channel_name args)
              this u) as [Hc | Hc]; [|exact Hc].
  exfalso. revert He Hc. unfold resolveChannelId.
  change (as_truthy None) with (@None string).
  unfold truthy in Hname. destruct (as_truthy (Args.channel_name args)); [|discriminate].
  rewrite getChannels_200. simpl.
  destruct (upstream (ConversationsList 200 None) u) as [u1 [resp|e1]]; discriminate.
Qed.

Lemma scan_by_name_does_not_fall_back_witness :
  exec (Fixture.upstream [])
    (getMentions Fixture.client
       (Args.make None (Some "announcements") None None None None None) "U123")
    Fixture.no_this tt
  = mkExecution tt Fixture.no_this [ConversationsList 200 None]
      (Thrown (Error "Channel with name 'announcements' not found")) /\
  calls (exec (Fixture.upstream [])
           (getMentions Fixture.client
              (Args.make None (Some "announcements") None None None None None) "U123")
           Fixture.no_this tt)
  = [ConversationsList 200 None].
Proof.
  split; [reflexivity|].
  apply (@scan_by_name_does_not_fall_back unit (Fixture.upstream []) Fixture.client
           (Args.make None (Some "announcements") None None None None None) "U123"
           Fixture.no_this tt (Error "Channel with name 'announcements' not found")
           eq_refl eq_refl eq_refl).
Defined.

(** ** Requests without an arguments object *)

(** X10. A request that carries no arguments object is never served, not
    even for the tools that need no argument.  The function-based server
    answers it with the error object "No arguments provided", whatever the
    operation name, without any call.  The class-based server, once it
    has its client, faults the three operations whose keys its dispatcher
    checks, and answers the other six with the error result of the
    [TypeError] of their first property read; it issues no call for it,
    except that the mention method, on a server that does not hold the bot
    user id, first issues its [auth.test] call, and answers "Slack Bot
    User ID not available." when that yields no id. *)
Theorem request_without_arguments :
  forall (U : Type) (upstream : forall q : Req, U -> U * FetchResult (Resp q))
         (request : CallToolRequest) this (u : U),
    arguments request = None ->
    (forall slackClient,
        exec upstream (Standalone.CallToolRequestHandler slackClient request) this u
        = mkExecution u this []
            (Returned {| content := JSON_stringify_error "No arguments provided";
                         isError := false |})) /\
    (forall t client,
        tool_of_name (name request) = Some t ->
        slackClient this = Some client ->
        let r := exec upstream (SlackMcpServer.CallToolRequestHandler request) this u in
        let failed text :=
          mkExecution u this [] (Returned {| content := Literal text; isError := true |}) in
        match t with
        | reply_to_thread_on_slack | get_thread_replies_on_slack
        | get_user_profile_on_slack =>
            exists msg, r = mkExecution u this [] (Thrown (McpError InvalidRequest msg))
        | channels_list_on_slack =>
            r = failed ("Error listing channels: "
                        ++ "Cannot read properties of undefined (reading 'limit')")
        | send_message_on_slack =>
            r = failed ("Error sending message: "
                        ++ "Cannot read properties of undefined (reading 'channel_id')")
        | get_channel_history_on_slack =>
            r = failed ("Error getting channel history: "
                        ++ "Cannot read properties of undefined (reading 'channel_id')")
        | get_users_on_slack =>
            r = failed ("Error getting users: "
                        ++ "Cannot read properties of undefined (reading 'limit')")
        | get_channel_messages_on_slack =>
            r = failed ("Error getting channel messages: "
                        ++ "Cannot read properties of undefined (reading 'channel_id')")
        | get_mentions_on_slack =>
            (truthy (slackBotUserId this) = true ->
             r = failed ("Error getting mentions: "
                         ++ "Cannot read properties of undefined (reading 'channel_id')")) /\
            (truthy (slackBotUserId this) = false ->
             forall u1 answer,
               upstream AuthTest u = (u1, answer) ->
               r = match obtained_id answer with
                   | None =>
                       mkExecution u1 this [AuthTest]
                         (Returned {| content := Literal "Slack Bot User ID not available.";
                                      isError := true |})
                   | Some uid =>
                       mkExecution u1
                         {| slackClient := Some client; slackBotUserId := Some uid |}
                         [AuthTest]
                         (Returned
                            {| content :=
                                 Literal ("Error getting mentions: "
                                          ++ "Cannot read properties of undefined "
                                          ++ "(reading 'channel_id')");
                               isError := true |})
                   end)
        end).
Proof.
  intros U upstream request this u Hargs. split.
  - intros slackClient. unfold Standalone.CallToolRequestHandler.
    rewrite exec_try_catch_ret. unfold Standalone.try_block. now rewrite Hargs.
  - intros t client Ht Hc r failed. subst r failed.
    unfold SlackMcpServer.CallToolRequestHandler. rewrite Ht, Hargs.
    destruct t; cbn [SlackMcpServer.has_key andb];
      try (eexists; reflexivity);
      try (unfold SlackMcpServer.handleListChannels, SlackMcpServer.handlePostMessage,
             SlackMcpServer.handleGetChannelHistory, SlackMcpServer.handleGetUsers,
             SlackMcpServer.handleGetChannelMessages;
           rewrite (exec_guarded upstream _ _ this u Hc); reflexivity).
    split.
    + intros Hid. unfold truthy in Hid.
      destruct (as_truthy (slackBotUserId this)) as [uid|] eqn:E; [|discriminate].
      apply (@exec_method_of U upstream get_mentions_on_slack None client uid this u Hc).
      intros _. exact E.
    + intros Hid u1 answer Hup.
      rewrite (@exec_handleGetMentions_without_id U upstream None client this u Hc Hid), Hup.
      now destruct (obtained_id answer).
Qed.

Lemma request_without_arguments_witness :
  exec (Fixture.upstream [])
    (Standalone.CallToolRequestHandler Fixture.client
       {| name := "get_users_on_slack"; arguments := None |}) Fixture.no_this tt
  = mkExecution tt Fixture.no_this []
      (Returned {| content := JSON_stringify_error "No arguments provided";
                   isError := false |}) /\
  exec (Fixture.upstream [])
    (SlackMcpServer.CallToolRequestHandler
       {| name := "get_users_on_slack"; arguments := None |}) Fixture.started tt
  = mkExecution tt Fixture.started []
      (Returned
         {| content :=
              Literal ("Error getting users: "
                       ++ "Cannot read properties of undefined (reading 'limit')");
            isError := true |}) /\
  exec Flaky.upstream
    (SlackMcpServer.CallToolRequestHandler
       {| name := "get_mentions_on_slack"; arguments := None |}) Flaky.client_only 0%nat
  = mkExecution 1%nat Flaky.client_only [AuthTest]
      (Returned {| content := Literal "Slack Bot User ID not available.";
                   isError := true |}).
Proof.
  split; [|split].
  - apply (@request_without_arguments unit (Fixture.upstream [])
             {| name := "get_users_on_slack"; arguments := None |} Fixture.no_this tt eq_refl).
  - apply (proj2 (@request_without_arguments unit (Fixture.upstream [])
                    {| name := "get_users_on_slack"; arguments := None |}
                    Fixture.started tt eq_refl)
             get_users_on_slack Fixture.client eq_refl eq_refl).
  - apply (proj2 (proj2 (@request_without_arguments nat Flaky.upstream
                           {| name := "get_mentions_on_slack"; arguments := None |}
                           Flaky.client_only 0%nat eq_refl)
                    get_mentions_on_slack Fixture.client eq_refl eq_refl)
             eq_refl 1%nat (Resolved (AuthTestResponse.make false None)) eq_refl).
Defined.

(** ** Posting *)

(** X11. In the function-based server a complete [send_message_on_slack]
    or [reply_to_thread_on_slack] call with a truthy channel identifier
    issues exactly one call, the post to that channel (with the thread
    timestamp for a reply), and answers with the upstream answer, or with
    the error object of the rejection.  A [send_message_on_slack] call by
    channel name lists the channels and then posts to the identifier of
    the matching channel. *)
Theorem standalone_posts_once :
  forall (U : Type) (upstream : forall q : Req, U -> U * FetchResult (Resp q))
         slackClient (args : Args.t) (text : string) this (u : U),
    as_truthy (Args.text args) = Some text ->
    (forall channel_id,
        as_truthy (Args.channel_id args) = Some channel_id ->
        exec upstream
          (Standalone.CallToolRequestHandler slackClient
             {| name := "send_message_on_slack"; arguments := Some args |}) this u
        = let q := ChatPostMessage channel_id None (Some text) in
          let (u', r) := upstream q u in
          mkExecution u' this [q]
            (Returned match r with
                      | Resolved response => text_result (JsonValue response)
                      | Rejected e => Standalone.error_payload e
                      end)) /\
    (forall channel_id thread_ts,
        as_truthy (Args.channel_id args) = Some channel_id ->
        as_truthy (Args.thread_ts args) = Some thread_ts ->
        exec upstream
          (Standalone.CallToolRequestHandler slackClient
             {| name := "reply_to_thread_on_slack"; arguments := Some args |}) this u
        = let q := ChatPostMessage channel_id (Some thread_ts) (Some text) in
          let (u', r) := upstream q u in
          mkExecution u' this [q]
            (Returned match r with
                      | Resolved response => text_result (JsonValue response)
                      | Rejected e => Standalone.error_payload e
                      end)) /\
    (forall channel_name u1 page ch,
        as_truthy (Args.channel_id args) = None ->
        as_truthy (Args.channel_name args) = Some channel_name ->
        upstream (ConversationsList 200 None) u
        = (u1, Resolved (ChannelsResponse.make true page)) ->
        find (name_matches channel_name) page = Some ch ->
        Channel.id ch <> "" ->
        calls (exec upstream
                 (Standalone.CallToolRequestHandler slackClient
                    {| name := "send_message_on_slack"; arguments := Some args |}) this u)
        = [ConversationsList 200 None; ChatPostMessage (Channel.id ch) None (Some text)]).
Proof.
  intros U upstream slackClient args text this u Htext.
  unfold Standalone.CallToolRequestHandler. split; [|split].
  - intros channel_id Hid. rewrite exec_try_catch_ret.
    unfold Standalone.try_block, Standalone.switch, Standalone.resolve_in_case.
    cbn [name arguments tool_of_name String.eqb Ascii.eqb Bool.eqb]. rewrite Hid.
    cbn [bind]. rewrite Hid, Htext. unfold postMessage. simpl.
    now destruct (upstream (ChatPostMessage channel_id None (Some text)) u) as [u' [j|e]].
  - intros channel_id thread_ts Hid Hts. rewrite exec_try_catch_ret.
    unfold Standalone.try_block, Standalone.switch.
    cbn [name arguments tool_of_name String.eqb Ascii.eqb Bool.eqb].
    rewrite Hid, Hts, Htext. unfold postReply. simpl.
    now destruct (upstream (ChatPostMessage channel_id (Some thread_ts) (Some text)) u)
      as [u' [j|e]].
  - intros channel_name u1 page ch Hid Hname Hlist Hfind Hch. rewrite exec_try_catch_ret.
    unfold Standalone.try_block, Standalone.switch, Standalone.resolve_in_case.
    cbn [name arguments tool_of_name String.eqb Ascii.eqb Bool.eqb].
    rewrite Hid, Hname, getChannels_200. simpl. rewrite Hlist. simpl. rewrite Hfind.
    simpl. apply String.eqb_neq in Hch. rewrite Hch, Htext. unfold postMessage. simpl.
    now destruct (upstream (ChatPostMessage (Channel.id ch) None (Some text)) u1)
      as [u' [j|e]].
Qed.

Lemma standalone_posts_once_witness :
  calls (exec (Fixture.upstream [])
           (Standalone.CallToolRequestHandler Fixture.client
              {| name := "send_message_on_slack";
                 arguments :=
                   Some (Args.make None (Some "random") (Some "hello") None None None None) |})
           Fixture.no_this tt)
  = [ConversationsList 200 None; ChatPostMessage "C2" None (Some "hello")].
Proof.
  apply (proj2 (proj2 (@standalone_posts_once unit (Fixture.upstream []) Fixture.client
                         (Args.make None (Some "random") (Some "hello") None None None None)
                         "hello" Fixture.no_this tt eq_refl))
           "random" tt [Fixture.general; Fixture.random] Fixture.random
           eq_refl eq_refl eq_refl eq_refl).
  discriminate.
Defined.

(** X12. The class-based server does not check the text it posts.  A
    [send_message_on_slack] call with a truthy channel identifier posts
    whatever [args.text] is, an absent text included, and a
    [reply_to_thread_on_slack] call whose [thread_ts] and [text] keys are
    present posts them as they are, empty strings included.  Each is one
    call, answered with the upstream answer or with the error result of
    the rejection. *)
Theorem slackmcp_posts_unchecked_text :
  forall (U : Type) (upstream : forall q : Req, U -> U * FetchResult (Resp q))
         (args : Args.t) (client : SlackClient) (channel_id : string) this (u : U),
    slackClient this = Some client ->
    as_truthy (Args.channel_id args) = Some channel_id ->
    exec upstream
      (SlackMcpServer.CallToolRequestHandler
         {| name := "send_message_on_slack"; arguments := Some args |}) this u
    = (let q := ChatPostMessage channel_id None (Args.text args) in
       let (u', r) := upstream q u in
       mkExecution u' this [q]
         (Returned match r with
                   | Resolved response => text_result (JsonValue response)
                   | Rejected e => SlackMcpServer.error_result "Error sending message: " e
                   end)) /\
    (forall thread_ts text,
        Args.thread_ts args = Some thread_ts -> Args.text args = Some text ->
        exec upstream
          (SlackMcpServer.CallToolRequestHandler
             {| name := "reply_to_thread_on_slack"; arguments := Some args |}) this u
        = let q := ChatPostMessage channel_id (Some thread_ts) (Some text) in
          let (u', r) := upstream q u in
          mkExecution u' this [q]
            (Returned match r with
                      | Resolved response => text_result (JsonValue response)
                      | Rejected e =>
                          SlackMcpServer.error_result "Error replying to thread: " e
                      end)).
Proof.
  intros U upstream args client channel_id this u Hc Hid.
  assert (Ht : truthy (Args.channel_id args) = true) by (unfold truthy; now rewrite Hid).
  unfold SlackMcpServer.CallToolRequestHandler. split.
  - cbn [name arguments tool_of_name String.eqb Ascii.eqb Bool.eqb].
    unfold SlackMcpServer.handlePostMessage.
    rewrite (exec_guarded upstream _ _ this u Hc).
    unfold SlackMcpServer.property_of. cbn beta iota delta [bind].
    unfold SlackMcpServer.resolve_in_method. rewrite Ht. simpl. rewrite Hid.
    unfold postMessage. simpl.
    now destruct (upstream (ChatPostMessage channel_id None (Args.text args)) u)
      as [u' [j|e]].
  - intros thread_ts text Hts Htext.
    cbn [name arguments tool_of_name String.eqb Ascii.eqb Bool.eqb].
    unfold SlackMcpServer.has_key. rewrite Hts, Htext. cbn [andb].
    unfold SlackMcpServer.handleReplyToThread.
    rewrite (exec_guarded upstream _ _ this u Hc).
    unfold SlackMcpServer.property_of. cbn beta iota delta [bind].
    unfold SlackMcpServer.resolve_in_method. rewrite Ht. simpl. rewrite Hid.
    unfold postReply. rewrite Hts, Htext. simpl.
    now destruct (upstream (ChatPostMessage channel_id (Some thread_ts) (Some text)) u)
      as [u' [j|e]].
Qed.

Lemma slackmcp_posts_unchecked_text_witness :
  exec (Fixture.upstream [])
    (SlackMcpServer.CallToolRequestHandler
       {| name := "send_message_on_slack";
          arguments := Some (Args.make (Some "C1") None None None None None None) |})
    Fixture.started tt
  = mkExecution tt Fixture.started [ChatPostMessage "C1" None None]
      (Returned (text_result (JsonValue (RawJson "{ok:true}")))).
Proof.
  apply (proj1 (@slackmcp_posts_unchecked_text unit (Fixture.upstream [])
                  (Args.make (Some "C1") None None None None None None)
                  Fixture.client "C1" Fixture.started tt eq_refl eq_refl)).
Defined.

(** X13. A reply addressed by channel name.  The function-based server
    rejects it without any call, since its [reply_to_thread_on_slack] case
    accepts a channel identifier only; the class-based server resolves the
    name with one list call and posts the reply to the channel found. *)
Theorem reply_by_channel_name :
  forall (U : Type) (upstream : forall q : Req, U -> U * FetchResult (Resp q))
         (args : Args.t) (channel_name thread_ts text : string) this (u : U),
    as_truthy (Args.channel_id args) = None ->
    as_truthy (Args.channel_name args) = Some channel_name ->
    Args.thread_ts args = Some thread_ts ->
    Args.text args = Some text ->
    let request := {| name := "reply_to_thread_on_slack"; arguments := Some args |} in
    (forall slackClient,
        exec upstream (Standalone.CallToolRequestHandler slackClient request) this u
        = mkExecution u this []
            (Returned {| content := JSON_stringify_error
                           "Missing required arguments: channel_id, thread_ts, and text";
                         isError := false |})) /\
    (forall client u1 page ch,
        slackClient this = Some client ->
        upstream (ConversationsList 200 None) u
        = (u1, Resolved (ChannelsResponse.make true page)) ->
        find (name_matches channel_name) page = Some ch ->
        Channel.id ch <> "" ->
        calls (exec upstream (SlackMcpServer.CallToolRequestHandler request) this u)
        = [ConversationsList 200 None;
           ChatPostMessage (Channel.id ch) (Some thread_ts) (Some text)]).
Proof.
  intros U upstream args channel_name thread_ts text this u Hid Hname Hts Htext request.
  subst request. split.
  - intros slackClient. unfold Standalone.CallToolRequestHandler.
    rewrite exec_try_catch_ret. unfold Standalone.try_block, Standalone.switch.
    cbn [name arguments tool_of_name String.eqb Ascii.eqb Bool.eqb]. now rewrite Hid.
  - intros client u1 page ch Hc Hlist Hfind Hch.
    unfold SlackMcpServer.CallToolRequestHandler.
    cbn [name arguments tool_of_name String.eqb Ascii.eqb Bool.eqb].
    unfold SlackMcpServer.has_key. rewrite Hts, Htext. cbn [andb].
    unfold SlackMcpServer.handleReplyToThread.
    rewrite (exec_guarded upstream _ _ this u Hc).
    unfold SlackMcpServer.property_of. cbn beta iota delta [bind].
    unfold SlackMcpServer.resolve_in_method, truthy, resolveChannelId.
    rewrite Hid, Hname. cbn [negb andb]. change (as_truthy None) with (@None string).
    rewrite getChannels_200.
    simpl. rewrite Hlist. simpl. rewrite Hfind. simpl.
    apply String.eqb_neq in Hch. rewrite Hch, Hts, Htext. unfold postReply. simpl.
    now destruct (upstream (ChatPostMessage (Channel.id ch) (Some thread_ts) (Some text)) u1)
      as [u' [j|e]].
Qed.

Lemma reply_by_channel_name_witness :
  calls (exec (Fixture.upstream [])
           (SlackMcpServer.CallToolRequestHandler
              {| name := "reply_to_thread_on_slack";
                 arguments := Some (Args.make None (Some "general") (Some "on it")
                                      (Some "1700000300.000100") None None None) |})
           Fixture.started tt)
  = [ConversationsList 200 None;
     ChatPostMessage "C1" (Some "1700000300.000100") (Some "on it")].
Proof.
  apply (proj2 (@reply_by_channel_name unit (Fixture.upstream [])
                  (Args.make None (Some "general") (Some "on it")
                     (Some "1700000300.000100") None None None)
                  "general" "1700000300.000100" "on it" Fixture.started tt
                  eq_refl eq_refl eq_refl eq_refl)
           Fixture.client tt [Fixture.general; Fixture.random] Fixture.general
           eq_refl eq_refl eq_refl).
  discriminate.
Defined.

(** X14. While the class-based server has no client, every handler
    method answers "Slack client not initialized." as an error result,
    without any call and without touching the server object. *)
Theorem methods_need_the_client :
  forall (U : Type) (upstream : forall q : Req, U -> U * FetchResult (Resp q))
         (t : Tool) (args : option Args.t) this (u : U),
    slackClient this = None ->
    exec upstream (SlackMcpServer.method_of t args) this u
    = mkExecution u this []
        (Returned {| content := Literal "Slack client not initialized."; isError := true |}).
Proof.
  intros U upstream t args this u Hc.
  destruct t; simpl; now rewrite Hc.
Qed.

Lemma methods_need_the_client_witness :
  exec (Fixture.upstream [])
    (SlackMcpServer.method_of get_mentions_on_slack (Some Args.empty))
    SlackMcpServer.constructed tt
  = mkExecution tt SlackMcpServer.constructed []
      (Returned {| content := Literal "Slack client not initialized."; isError := true |}).
Proof.
  apply (@methods_need_the_client unit (Fixture.upstream []) get_mentions_on_slack
           (Some Args.empty) SlackMcpServer.constructed tt eq_refl).
Defined.

(** ** Startup and the bot user id *)


(** X15. [run()] without a bot token leaves the server without client,
    issues no call and does not connect.  With a token it installs the
    client, issues exactly one [auth.test] call and connects whatever the
    answer is: an answer that is rejected, not ok or without user id only
    leaves the bot user id unset. *)
Theorem run_startup :
  forall (U : Type) (upstream : forall q : Req, U -> U * FetchResult (Resp q))
         (SLACK_BOT_TOKEN : option string) this (u : U),
    let r := exec upstream (SlackMcpServer.run SLACK_BOT_TOKEN) this u in
    (as_truthy SLACK_BOT_TOKEN = None ->
     r = mkExecution u {| slackClient := None; slackBotUserId := slackBotUserId this |}
           [] (Returned false)) /\
    (forall token u1 answer,
        as_truthy SLACK_BOT_TOKEN = Some token ->
        upstream AuthTest u = (u1, answer) ->
        r = mkExecution u1
              {| slackClient := Some {| botToken := token |};
                 slackBotUserId := match obtained_id answer with
                                   | Some uid => Some uid
                                   | None => slackBotUserId this
                                   end |}
              [AuthTest] (Returned true)).
Proof.
  intros U upstream token this u r. subst r.
  unfold SlackMcpServer.run, SlackMcpServer.initializeSlackClient. split.
  - intros Ht. rewrite Ht. reflexivity.
  - intros t u1 answer Ht Hup. rewrite Ht. cbn [bind SlackMcpServer.this exec].
    rewrite exec_bind.
    rewrite (@exec_fetchBotUserId U upstream {| botToken := t |}
               {| slackClient := Some {| botToken := t |};
                  slackBotUserId := slackBotUserId this |} u eq_refl).
    rewrite Hup. unfold then_exec. simpl. now destruct (obtained_id answer).
Qed.

Lemma run_startup_witness :
  exec Flaky.upstream (SlackMcpServer.run (Some "xoxb-fixture")) SlackMcpServer.constructed 0%nat
  = mkExecution 1%nat Flaky.client_only [AuthTest] (Returned true).
Proof.
  apply (proj2 (@run_startup nat Flaky.upstream (Some "xoxb-fixture")
                  SlackMcpServer.constructed 0%nat)
           "xoxb-fixture" 1%nat
           (Resolved (AuthTestResponse.make false None)) eq_refl eq_refl).
Defined.

(** X16. A mention request on a server that does not hold the bot user
    id yet first issues one [auth.test] call.  When the answer yields no
    id, the request ends there with the error result "Slack Bot User ID
    not available." and nothing is cached, so the next mention request
    tries again.  When it yields an id, the id is stored in the server
    object and the scan runs with it; the scan's failure comes back as an
    error result. *)
Theorem mentions_fetch_the_id_on_demand :
  forall (U : Type) (upstream : forall q : Req, U -> U * FetchResult (Resp q))
         (args : option Args.t) (client : SlackClient) this (u u1 : U)
         (answer : FetchResult AuthTestResponse.t),
    slackClient this = Some client ->
    truthy (slackBotUserId this) = false ->
    upstream AuthTest u = (u1, answer) ->
    let r := exec upstream (SlackMcpServer.handleGetMentions args) this u in
    (obtained_id answer = None ->
     r = mkExecution u1 this [AuthTest]
           (Returned {| content := Literal "Slack Bot User ID not available.";
                        isError := true |})) /\
    (forall uid a,
        obtained_id answer = Some uid -> args = Some a ->
        let this' := {| slackClient := Some client; slackBotUserId := Some uid |} in
        let scan := exec upstream (getMentions client a uid) this' u1 in
        r = mkExecution (upstream_after scan) this' (AuthTest :: calls scan)
              match outcome scan with
              | Returned response => Returned (text_result (HistoryValue response))
              | Thrown e =>
                  Returned (SlackMcpServer.error_result "Error getting mentions: " e)
              end).
Proof.
  intros U upstream args client this u u1 answer Hc Hid Hup r. subst r.
  unfold SlackMcpServer.handleGetMentions.
  cbn [bind SlackMcpServer.this exec]. rewrite Hc, Hid. cbn [negb].
  rewrite exec_bind, (exec_fetchBotUserId upstream this u Hc), Hup.
  unfold then_exec. cbn [outcome this_after upstream_after calls exec]. split.
  - intros Hnone. rewrite Hnone. rewrite (truthy_false _ Hid). reflexivity.
  - intros uid a Huid ->. rewrite Huid.
    cbn [slackBotUserId slackClient].
    destruct (obtained_id_truthy _ Huid) as [Hs _]. rewrite Hs.
    rewrite exec_try_catch_ret. cbn [SlackMcpServer.property_of bind].
    rewrite exec_bind. unfold then_exec.
    set (this' := {| slackClient := Some client; slackBotUserId := Some uid |}).
    destruct (@keeps_exec U upstream (fun _ => True) _ (getMentions client a uid) this' u1)
      as [Hthis _]; [now apply keeps_getMentions|].
    set (scan := exec upstream (getMentions client a uid) this' u1) in *.
    destruct (outcome scan) as [h|e]; simpl; rewrite ?Hthis, ?app_nil_r; reflexivity.
Qed.

Lemma mentions_fetch_the_id_on_demand_witness :
  exec Flaky.upstream (SlackMcpServer.handleGetMentions (Some Args.empty))
    Flaky.client_only 0%nat
  = mkExecution 1%nat Flaky.client_only [AuthTest]
      (Returned {| content := Literal "Slack Bot User ID not available.";
                   isError := true |}) /\
  this_after (exec Flaky.upstream
                (SlackMcpServer.handleGetMentions
                   (Some (Args.make (Some "C1") None None None None None None)))
                Flaky.client_only 1%nat)
  = Fixture.started.
Proof.
  split; [|reflexivity].
  apply (proj1 (@mentions_fetch_the_id_on_demand nat Flaky.upstream (Some Args.empty)
                  Fixture.client Flaky.client_only 0%nat 1%nat
                  (Resolved (AuthTestResponse.make false None)) eq_refl eq_refl eq_refl)).
  reflexivity.
Defined.

(** ** The invariant of the server object *)

Lemma establishes_exec (U : Type) (upstream : forall q : Req, U -> U * FetchResult (Resp q))
  (I : ServerState -> Prop) (A : Type) (m : Prog A) s u :
  I s -> establishes I s m -> I (this_after (exec upstream m s u)).
Proof.
  revert s u. induction m as [a|e|q k IH|k IH|s' k IH]; intros s u Hs H; simpl in *.
  - assumption.
  - assumption.
  - destruct (upstream q u) as [u' r]. simpl. now apply IH.
  - now apply IH.
  - destruct H as [Hs' H]. now apply IH.
Qed.

Lemma keeps_establishes (P : Req -> Prop) (I : ServerState -> Prop) (A : Type)
  (m : Prog A) s :
  I s -> keeps P s m -> establishes I s m.
Proof.
  intros Hs. induction m as [a|e|q k IH|k IH|s' k IH]; simpl; intros H; auto.
  - destruct H as [_ H]. auto.
  - destruct H as [-> H]. auto.
Qed.

Lemma establishes_handleGetMentions (client : option SlackClient) (args : option Args.t)
  (s : ServerState) :
  object_invariant client s ->
  establishes (object_invariant client) s (SlackMcpServer.handleGetMentions args).
Proof.
  intros Hs. destruct (truthy (slackBotUserId s)) eqn:Hid.
  - apply (@keeps_establishes not_identity_fetch _ _ _ _ Hs).
    apply (keeps_handler_once_fetched
             {| name := "get_mentions_on_slack"; arguments := args |} s Hid).
  - unfold SlackMcpServer.handleGetMentions. simpl.
    destruct (slackClient s) as [c|] eqn:Hc; [|exact I].
    rewrite Hid. simpl. rewrite Hc. simpl.
    intros [data|e]; simpl.
    + destruct (AuthTestResponse.ok data && truthy (AuthTestResponse.user_id data)) eqn:Hok;
        simpl.
      * apply andb_true_iff in Hok. destruct Hok as [_ Huid].
        assert (Hs' : object_invariant client
                        {| slackClient := slackClient s;
                           slackBotUserId := AuthTestResponse.user_id data |}).
        { destruct Hs as [Hcl _]. split; [exact Hcl | now right]. }
        split; [exact Hs'|].
        destruct (as_truthy (AuthTestResponse.user_id data)); [|exact I].
        apply (@keeps_establishes not_identity_fetch _ _ _ _ Hs').
        repeat keeps_step.
      * rewrite (truthy_false _ Hid). exact I.
    + rewrite (truthy_false _ Hid). exact I.
Qed.

Lemma establishes_handler (client : option SlackClient) (request : CallToolRequest)
  (s : ServerState) :
  object_invariant client s ->
  establishes (object_invariant client) s (SlackMcpServer.CallToolRequestHandler request).
Proof.
  intros Hs. unfold SlackMcpServer.CallToolRequestHandler.
  destruct (tool_of_name (name request)) as [t|]; [|exact I].
  destruct t;
    try match goal with
      | |- establishes _ _ (if ?x then _ else _) => destruct x; [|exact I]
      end;
    try (apply (@keeps_establishes not_identity_fetch _ _ _ _ Hs);
         apply keeps_guarded; repeat keeps_step).
  now apply establishes_handleGetMentions.
Qed.

Section Invariant.
Context {U : Type}.
Variable upstream : forall q : Req, U -> U * FetchResult (Resp q).

Lemma serve_invariant (client : option SlackClient) (requests : list CallToolRequest)
  (s : ServerState) (u : U) :
  object_invariant client s ->
  object_invariant client
    (this_after (serve upstream SlackMcpServer.CallToolRequestHandler requests s u)).
Proof.
  revert s u. induction requests as [|request rest IH]; intros s u Hs; simpl.
  - assumption.
  - apply IH. apply establishes_exec; [assumption | now apply establishes_handler].
Qed.
End Invariant.

Lemma run_establishes (U : Type)
  (upstream : forall q : Req, U -> U * FetchResult (Resp q))
  (SLACK_BOT_TOKEN : option string) (u : U) :
  object_invariant (SlackMcpServer.initializeSlackClient SLACK_BOT_TOKEN)
    (this_after (exec upstream (SlackMcpServer.run SLACK_BOT_TOKEN)
                   SlackMcpServer.constructed u)).
Proof.
  unfold SlackMcpServer.run, SlackMcpServer.initializeSlackClient.
  destruct (as_truthy SLACK_BOT_TOKEN) as [token|].
  - cbn [bind SlackMcpServer.this exec]. rewrite exec_bind.
    rewrite (@exec_fetchBotUserId U upstream {| botToken := token |}
               {| slackClient := Some {| botToken := token |};
                  slackBotUserId := slackBotUserId SlackMcpServer.constructed |} u eq_refl).
    destruct (upstream AuthTest u) as [u1 answer]. unfold then_exec.
    cbn [outcome this_after exec].
    destruct (obtained_id answer) as [uid|] eqn:Huid.
    + split; [reflexivity|]. right. unfold truthy. cbn [slackBotUserId].
      now rewrite (proj1 (obtained_id_truthy _ Huid)).
    + split; [reflexivity | now left].
  - simpl. split; [reflexivity | now left].
Qed.

(** X17. Throughout a process ([run()] on the constructed server, then
    any requests) the server object keeps the client that [run()]
    installed from the token, and its cached bot user id is either unset
    or a non-empty string: no request replaces the client, and nothing
    ever stores an empty or absent id. *)
Theorem server_object_invariant :
  forall (U : Type) (upstream : forall q : Req, U -> U * FetchResult (Resp q))
         (SLACK_BOT_TOKEN : option string) (requests : list CallToolRequest) (u : U),
    let final := this_after (process upstream SLACK_BOT_TOKEN requests u) in
    slackClient final = SlackMcpServer.initializeSlackClient SLACK_BOT_TOKEN /\
    (slackBotUserId final = None \/
     exists uid, slackBotUserId final = Some uid /\ uid <> "").
Proof.
  intros U upstream token requests u final.
  assert (H : object_invariant (SlackMcpServer.initializeSlackClient token) final).
  { subst final. unfold process.
    assert (Hstart : object_invariant (SlackMcpServer.initializeSlackClient token)
                       (this_after (exec upstream (SlackMcpServer.run token)
                                      SlackMcpServer.constructed u))).
    { destruct (@run_establishes U upstream token u) as [H1 H2]. now split. }
    destruct (outcome (exec upstream (SlackMcpServer.run token)
                         SlackMcpServer.constructed u)) as [[|]|e]; simpl;
      try exact Hstart.
    now apply serve_invariant. }
  destruct H as [Hc Hid]. split; [exact Hc|].
  destruct Hid as [Hid | Hid]; [now left | right].
  unfold truthy, as_truthy in Hid. destruct (slackBotUserId final) as [uid|]; [|discriminate].
  exists uid. split; [reflexivity|]. destruct (String.eqb_spec uid ""); [discriminate | assumption].
Qed.

(** ** Schemas and what the handlers check *)

(** X18. [get_channel_history_on_slack] is served without a limit,
    although its schema lists [limit] as required: with a truthy channel
    identifier both servers issue the one history request, for 10
    messages when the limit is absent and for the limit as it is
    otherwise, 0 included, and answer with the upstream answer. *)
Theorem channel_history_limit_is_optional :
  forall (U : Type) (upstream : forall q : Req, U -> U * FetchResult (Resp q))
         (args : Args.t) (channel_id : string) this (u : U),
    as_truthy (Args.channel_id args) = Some channel_id ->
    let request := {| name := "get_channel_history_on_slack"; arguments := Some args |} in
    let q := ConversationsHistory channel_id
               match Args.limit args with
               | Some n => n
               | None => 10
               end in
    In "limit" (required getChannelHistoryTool) /\
    (forall slackClient,
        exec upstream (Standalone.CallToolRequestHandler slackClient request) this u
        = let (u', r) := upstream q u in
          mkExecution u' this [q]
            (Returned match r with
                      | Resolved response => text_result (HistoryValue response)
                      | Rejected e => Standalone.error_payload e
                      end)) /\
    (forall client,
        slackClient this = Some client ->
        exec upstream (SlackMcpServer.CallToolRequestHandler request) this u
        = let (u', r) := upstream q u in
          mkExecution u' this [q]
            (Returned match r with
                      | Resolved response => text_result (HistoryValue response)
                      | Rejected e =>
                          SlackMcpServer.error_result "Error getting channel history: " e
                      end)).
Proof.
  intros U upstream args channel_id this u Hid request q. subst request q.
  assert (Ht : truthy (Args.channel_id args) = true) by (unfold truthy; now rewrite Hid).
  split; [now left|]. split.
  - intros slackClient. unfold Standalone.CallToolRequestHandler.
    rewrite exec_try_catch_ret.
    unfold Standalone.try_block, Standalone.switch, Standalone.resolve_in_case.
    cbn [name arguments tool_of_name String.eqb Ascii.eqb Bool.eqb]. rewrite Hid.
    cbn [bind]. rewrite Hid. unfold getChannelHistory, default_param. simpl.
    now destruct (upstream _ u) as [u' [h|e]].
  - intros client Hc. unfold SlackMcpServer.CallToolRequestHandler.
    cbn [name arguments tool_of_name String.eqb Ascii.eqb Bool.eqb].
    unfold SlackMcpServer.handleGetChannelHistory.
    rewrite (exec_guarded upstream _ _ this u Hc).
    unfold SlackMcpServer.property_of. cbn beta iota delta [bind].
    unfold SlackMcpServer.resolve_in_method. rewrite Ht. simpl. rewrite Hid.
    unfold getChannelHistory, default_param. simpl.
    now destruct (upstream _ u) as [u' [h|e]].
Qed.

Lemma channel_history_limit_is_optional_witness :
  exec (Fixture.upstream [])
    (Standalone.CallToolRequestHandler Fixture.client
       {| name := "get_channel_history_on_slack";
          arguments := Some (Args.make (Some "C2") None None None None None None) |})
    Fixture.no_this tt
  = mkExecution tt Fixture.no_this [ConversationsHistory "C2" 10]
      (Returned (text_result
                   (HistoryValue (HistoryResponse.make true
                                    [Fixture.r1; Fixture.r2; Fixture.r3])))).
Proof.
  apply (proj1 (proj2 (@channel_history_limit_is_optional unit (Fixture.upstream [])
                         (Args.make (Some "C2") None None None None None None) "C2"
                         Fixture.no_this tt eq_refl)) Fixture.client).
Defined.

Section RequiredKeys.
Context {U : Type}.
Variable upstream : forall q : Req, U -> U * FetchResult (Resp q).

Lemma missing_required_outcome slackClient (request : CallToolRequest) (t : Tool)
  (args : Args.t) this (u : U) :
  tool_of_name (name request) = Some t ->
  arguments request = Some args ->
  Standalone.missing_required t args = true ->
  let r := exec upstream (Standalone.CallToolRequestHandler slackClient request) this u in
  (exists error, outcome r = Returned {| content := JSON_stringify_error error;
                                         isError := false |}) /\
  (calls r = [] \/ calls r = [ConversationsList 200 None]).
Proof.
  intros Htool Hargs Hmissing r. subst r.
  unfold Standalone.CallToolRequestHandler. rewrite exec_try_catch_ret.
  unfold Standalone.try_block, Standalone.switch. rewrite Hargs, Htool.
  revert Hmissing.
  unfold Standalone.missing_required, Standalone.resolve_in_case, getChannelMessages,
    resolveChannelId, truthy.
  rewrite ?getChannels_200.
  destruct t; try discriminate; split_case upstream; intros Hmissing;
    try discriminate Hmissing; try congruence;
    (split; [eexists; reflexivity | first [now left | now right]]).
Qed.
End RequiredKeys.

(** X19. For every tool the function-based server lists, a call in which
    a key that the tool's schema requires is missing or falsy is answered
    with an error object, and the operation itself is not carried out: at
    most the channel list is read.  The one exception is the [limit] of
    [get_channel_history_on_slack]. *)
Theorem listed_required_keys_are_checked :
  forall (U : Type) (upstream : forall q : Req, U -> U * FetchResult (Resp q))
         slackClient (tool : ToolDefinition) (key : string) (args : Args.t) this (u : U),
    In tool Standalone_ListTools ->
    In key (required tool) ->
    key <> "limit" ->
    key_is_truthy key args = false ->
    let r := exec upstream
               (Standalone.CallToolRequestHandler slackClient
                  {| name := tool_name tool; arguments := Some args |}) this u in
    (exists error, outcome r = Returned {| content := JSON_stringify_error error;
                                           isError := false |}) /\
    (calls r = [] \/ calls r = [ConversationsList 200 None]).
Proof.
  intros U upstream slackClient tool key args this u Htool Hkey Hlimit Hfalsy.
  simpl in Htool.
  repeat (destruct Htool as [<- | Htool]; [simpl in Hkey|]); try contradiction;
    repeat (destruct Hkey as [<- | Hkey]; [|try contradiction]);
    try (exfalso; apply Hlimit; reflexivity);
    unfold key_is_truthy in Hfalsy; cbn [String.eqb Ascii.eqb Bool.eqb] in Hfalsy;
    (eapply missing_required_outcome; [reflexivity | reflexivity |]);
    unfold Standalone.missing_required; rewrite Hfalsy;
    repeat match goal with |- context [truthy ?v] => destruct (truthy v) end; reflexivity.
Qed.

Lemma listed_required_keys_are_checked_witness :
  exists error,
    outcome (exec (Fixture.upstream [])
               (Standalone.CallToolRequestHandler Fixture.client
                  {| name := "get_user_profile_on_slack";
                     arguments := Some (Args.make None None None None (Some "") None None) |})
               Fixture.no_this tt)
    = Returned {| content := JSON_stringify_error error; isError := false |}.
Proof.
  apply (@listed_required_keys_are_checked unit (Fixture.upstream []) Fixture.client
           getUserProfileTool "user_id"
           (Args.make None None None None (Some "") None None) Fixture.no_this tt).
  - right; left; reflexivity.
  - left; reflexivity.
  - discriminate.
  - reflexivity.
Defined.


(** ** The weather example server *)

(** X21. A [get_weather] call with a city first asks the geocoding
    service for the city.  When the answer has no result (the key is
    absent or the list empty) the call returns the text "Could not find
    coordinates for city: ..." as a normal result and asks for no
    forecast.  Otherwise it asks for the forecast at the coordinates of
    the first result only, and returns the current weather of that
    answer. *)
Theorem get_weather_uses_first_location :
  forall (U : Type) (upstream : forall q : Weather.Req, U -> U * FetchResult (Weather.Resp q))
         (args : Weather.Args) (city : string) (u u1 : U)
         (answer : Weather.GeocodingResponse),
    as_truthy (Weather.city args) = Some city ->
    upstream (Weather.GeocodingSearch city) u = (u1, Resolved answer) ->
    let r := Weather.exec upstream
               (Weather.CallToolRequestHandler
                  {| Weather.name := "get_weather"; Weather.arguments := Some args |}) u in
    (Weather.results answer = None \/ Weather.results answer = Some [] ->
     r = ([Weather.GeocodingSearch city],
          Returned (Weather.CouldNotFindCoordinates city))) /\
    (forall first rest,
        Weather.results answer = Some (first :: rest) ->
        let q := Weather.Forecast (Weather.latitude first) (Weather.longitude first) in
        r = ([Weather.GeocodingSearch city; q],
             match snd (upstream q u1) with
             | Resolved weather =>
                 Returned (Weather.CurrentWeather city (Weather.current_weather weather))
             | Rejected e => Thrown e
             end)).
Proof.
  intros U upstream args city u u1 answer Hcity Hup r. subst r.
  unfold Weather.CallToolRequestHandler. cbn [Weather.name Weather.arguments].
  cbn [String.eqb Ascii.eqb Bool.eqb]. rewrite Hcity.
  unfold Weather.getCoordinates, Weather.getWeather. simpl. rewrite Hup. simpl. split.
  - intros [H | H]; now rewrite H.
  - intros first rest H. rewrite H. simpl.
    now destruct (upstream (Weather.Forecast (Weather.latitude first)
                              (Weather.longitude first)) u1) as [u2 [w|e]].
Qed.

Lemma get_weather_uses_first_location_witness :
  Weather.exec Weather.fixture
    (Weather.CallToolRequestHandler
       {| Weather.name := "get_weather";
          Weather.arguments := Some {| Weather.city := Some "London" |} |}) tt
  = ([Weather.GeocodingSearch "London";
      Weather.Forecast (Weather.number "51.50853") (Weather.number "-0.12574")],
     Returned (Weather.CurrentWeather "London" (Some (RawJson "{temperature:11.4}")))).
Proof.
  apply (proj2 (@get_weather_uses_first_location unit Weather.fixture
                  {| Weather.city := Some "London" |} "London" tt tt
                  {| Weather.results :=
                       Some [ {| Weather.latitude := Weather.number "51.50853";
                                 Weather.longitude := Weather.number "-0.12574" |};
                              {| Weather.latitude := Weather.number "42.98339";
                                 Weather.longitude := Weather.number "-81.23304" |} ] |}
                  eq_refl eq_refl)
           {| Weather.latitude := Weather.number "51.50853";
              Weather.longitude := Weather.number "-0.12574" |}
           [ {| Weather.latitude := Weather.number "42.98339";
                Weather.longitude := Weather.number "-81.23304" |} ]
           eq_refl).
Defined.

(** X22. The weather example server catches nothing: an operation name
    other than [get_weather], a request without arguments object, a
    missing or empty city, and a rejected geocoding or forecast call all
    fault the request.  The name, the arguments and the city are checked
    before any call is issued. *)
Theorem get_weather_faults :
  forall (U : Type) (upstream : forall q : Weather.Req, U -> U * FetchResult (Weather.Resp q))
         (request : Weather.CallToolRequest) (u : U),
    let r := Weather.exec upstream (Weather.CallToolRequestHandler request) u in
    (Weather.name request <> "get_weather" ->
     r = ([], Thrown (Error ("Unknown tool: " ++ Weather.name request)))) /\
    (Weather.name request = "get_weather" ->
     (Weather.arguments request = None ->
      exists msg, r = ([], Thrown (TypeError msg))) /\
     (forall args,
         Weather.arguments request = Some args ->
         as_truthy (Weather.city args) = None ->
         r = ([], Thrown (Error "Missing required argument: city"))) /\
     (forall args city u1 e,
         Weather.arguments request = Some args ->
         as_truthy (Weather.city args) = Some city ->
         upstream (Weather.GeocodingSearch city) u = (u1, Rejected e) ->
         r = ([Weather.GeocodingSearch city], Thrown e))).
Proof.
  intros U upstream request u r. subst r. unfold Weather.CallToolRequestHandler. split.
  - intros Hname. apply String.eqb_neq in Hname. now rewrite Hname.
  - intros Hname. rewrite Hname. cbn [String.eqb Ascii.eqb Bool.eqb]. split; [|split].
    + intros ->. eexists. reflexivity.
    + intros args -> Hcity. now rewrite Hcity.
    + intros args city u1 e -> Hcity Hup. rewrite Hcity.
      unfold Weather.getCoordinates. simpl. now rewrite Hup.
Qed.

Lemma get_weather_faults_witness :
  Weather.exec Weather.fixture
    (Weather.CallToolRequestHandler
       {| Weather.name := "get_weather";
          Weather.arguments := Some {| Weather.city := Some "" |} |}) tt
  = ([], Thrown (Error "Missing required argument: city")).
Proof.
  apply (proj1 (proj2 (proj2 (@get_weather_faults unit Weather.fixture
                                {| Weather.name := "get_weather";
                                   Weather.arguments :=
                                     Some {| Weather.city := Some "" |} |} tt)
                         eq_refl))
           {| Weather.city := Some "" |} eq_refl eq_refl).
Defined.
